(** * example_app: the demonstration CRUD application of fastapi-radar

    A shallow embedding of [example_app.py]: the two ORM-mapped tables
    (products, users), the SQLAlchemy session each request works in, the
    route handlers, and the routing table the decorators build.  The
    theorems at the end settle the properties stated for the handlers. *)

From Stdlib Require Import ZArith List String Bool Lia.
Import ListNotations.
Open Scope string_scope.
Open Scope list_scope.
Open Scope Z_scope.

(** ** Column types *)

(** [DateTime] columns: a naive UTC timestamp.  The handlers never look
    inside one, they only store the clock reading. *)
Definition datetime := Z.

(** [Float] columns and Python [float]: a binary64 value, carried by its
    64-bit pattern (sign, 11 bits of exponent, 52 bits of fraction).  The
    handlers do no arithmetic on prices. *)
Definition float := Z.

(** A NaN: the exponent bits all set and a fraction that is not zero. *)
Definition is_nan (x : float) : bool :=
  (Z.land (Z.shiftr x 52) 0x7ff =? 0x7ff)
  && negb (Z.land x 0xfffffffffffff =? 0).

(** [-0.0]. *)
Definition negative_zero : float := 0x8000000000000000.

(** What a REAL column reads back for a value written to it: the value
    itself, except that SQLite keeps [-0.0] as the integer 0 and reads
    [0.0].  (A NaN is not written at all, see [value_is_NULL].) *)
Definition stored_real (x : float) : float :=
  if x =? negative_zero then 0 else x.

(** SQLite binds a NaN as NULL. *)
Definition value_is_NULL (x : float) : bool := is_nan x.

(** The driver turns a Python [int] parameter into a 64-bit INTEGER and
    raises [OverflowError] for one that does not fit. *)
Definition fits_int64 (n : Z) : bool :=
  (- 2 ^ 63 <=? n) && (n <? 2 ^ 63).

(** ** ORM models *)

(** [class Product(Base)], one row of table [products].  Every insert of
    this file gives [in_stock] and [created_at] a value (the request's or
    the column default), so stored rows carry both. *)
Module Product.
Record t : Type := mk {
  id : Z;
  name : string;
  description : option string;
  price : float;
  in_stock : bool;
  created_at : datetime
}.
End Product.

(** [class User(Base)], one row of table [users]. *)
Module User.
Record t : Type := mk {
  id : Z;
  username : string;
  email : string;
  full_name : option string;
  created_at : datetime
}.
End User.

(** ** Pydantic models *)

(** [class ProductCreate(BaseModel)] after validation: every field has a
    value. *)
Module ProductCreate.
Record t : Type := mk {
  name : string;
  description : option string;
  price : float;
  in_stock : bool
}.

(** The JSON body as the client sent it: [description] and [in_stock]
    may be left out. *)
Record body : Type := mk_body {
  body_name : string;
  body_description : option string;
  body_price : float;
  body_in_stock : option bool
}.

(** Field defaults: [description: Optional[str] = None],
    [in_stock: bool = True]. *)
Definition parse (b : body) : t :=
  {| name := body_name b;
     description := body_description b;
     price := body_price b;
     in_stock := match body_in_stock b with
                 | Some v => v
                 | None => true
                 end |}.
End ProductCreate.

(** [class UserCreate(BaseModel)]; [full_name] defaults to [None]. *)
Module UserCreate.
Record t : Type := mk {
  username : string;
  email : string;
  full_name : option string
}.
End UserCreate.

(** ** The database and the session *)

(** The SQLite file: two tables, rows in rowid order. *)
Record Database : Type := mkDatabase {
  products : list Product.t;
  users : list User.t
}.

Definition with_products (d : Database) (l : list Product.t) : Database :=
  {| products := l; users := users d |}.

Definition with_users (d : Database) (l : list User.t) : Database :=
  {| products := products d; users := l |}.

(** What the unit of work of a session holds until the next flush: the
    objects handed to [db.add], the loaded objects whose attributes were
    set, and those handed to [db.delete]. *)
Inductive write : Type :=
| Insert_Product (obj : Product.t)
| Insert_User (obj : User.t)
| Update_Product (obj : Product.t)
| Delete_Product (obj : Product.t).

(** A [Session] made by [SessionLocal()]: the rows on disk
    ([committed]), the rows the open transaction sees ([working]), the
    writes not flushed yet ([pending]), and the reading of
    [datetime.utcnow] column defaults take during this request. *)
Record Session : Type := mkSession {
  committed : Database;
  working : Database;
  utcnow : datetime;
  pending : list write
}.

(** ** Exceptions and the handler monad *)

Inductive exn : Type :=
| HTTPException (status_code : Z) (detail : string)
| ValueError (msg : string)
| InvalidRequestError (msg : string)
| IntegrityError (msg : string)
| OverflowError (msg : string).

Inductive outcome (A : Type) : Type :=
| Returned (a : A)
| Raised (e : exn).
Arguments Returned {A} a.
Arguments Raised {A} e.

(** The two exceptions that come from the database driver. *)
Definition int_too_large : exn :=
  OverflowError "Python int too large to convert to SQLite INTEGER".

Definition price_is_NULL : exn :=
  IntegrityError "NOT NULL constraint failed: products.price".

(** A handler body: runs in a session, returns or raises. *)
Definition Handler (A : Type) : Type := Session -> outcome A * Session.

Definition ret {A} (a : A) : Handler A := fun s => (Returned a, s).

Definition raise {A} (e : exn) : Handler A := fun s => (Raised e, s).

Definition bind {A B} (m : Handler A) (k : A -> Handler B) : Handler B :=
  fun s =>
    match m s with
    | (Returned a, s') => k a s'
    | (Raised e, s') => (Raised e, s')
    end.

Declare Scope handler_scope.
Delimit Scope handler_scope with handler.
Notation "x <- m ;; k" := (bind m (fun x => k))
  (at level 61, m at next level, right associativity) : handler_scope.
Notation "m ;; k" := (bind m (fun _ => k))
  (at level 61, right associativity) : handler_scope.
Open Scope handler_scope.

(** [for x in l: body], the results thrown away. *)
Fixpoint for_each {A B} (l : list A) (body : A -> Handler B) : Handler unit :=
  match l with
  | [] => ret tt
  | x :: l' => body x ;; for_each l' body
  end.

(** ** Python objects that reach [filter] *)

(** The operands of [is] in the source: the singletons [True], [False],
    [None], and the class-level column attributes such as
    [Product.in_stock], each of them one object. *)
Inductive pyobject : Type :=
| PyTrue
| PyFalse
| PyNone
| InstrumentedAttribute (table column : string).

(** [a is b]: object identity. *)
Definition py_is (a b : pyobject) : bool :=
  match a, b with
  | PyTrue, PyTrue => true
  | PyFalse, PyFalse => true
  | PyNone, PyNone => true
  | InstrumentedAttribute t c, InstrumentedAttribute t' c' =>
      String.eqb t t' && String.eqb c c'
  | _, _ => false
  end.

Definition Product_in_stock : pyobject :=
  InstrumentedAttribute "products" "in_stock".

(** What [Query.filter] is given: a comparison of an integer column with
    a Python [int], which becomes a bound parameter of the statement; any
    other column expression built with [==] and [|]; or a plain Python
    [bool], which SQLAlchemy turns into the constant clause [true()] or
    [false()]. *)
Inductive criterion (row : Type) : Type :=
| ColumnEq (column : row -> Z) (param : Z)
| ColumnExpr (holds : row -> bool)
| PyBool (b : bool).
Arguments ColumnEq {row} column param.
Arguments ColumnExpr {row} holds.
Arguments PyBool {row} b.

Definition satisfies {row} (c : criterion row) (r : row) : bool :=
  match c with
  | ColumnEq column param => column r =? param
  | ColumnExpr holds => holds r
  | PyBool b => b
  end.

Definition criterion_binds {row} (c : criterion row) : list Z :=
  match c with
  | ColumnEq _ param => [param]
  | _ => []
  end.

(** ** Queries *)

(** What [db.query(Model)] returns is built lazily: the rows it selects
    from a database, and the integer parameters the driver has to bind
    when the statement is run. *)
Record query (row : Type) : Type := mkQuery {
  select : Database -> list row;
  binds : list Z
}.
Arguments mkQuery {row} select binds.
Arguments select {row} q d.
Arguments binds {row} q.

Definition query_Product : query Product.t := mkQuery products [].
Definition query_User : query User.t := mkQuery users [].

Definition filter_ {row} (c : criterion row) (q : query row) : query row :=
  mkQuery (fun d => filter (satisfies c) (select q d))
          (binds q ++ criterion_binds c).

(** The rows of [l] after the first [n], and the first [n] rows of [l]:
    [skipn] and [firstn] at [Z.to_nat n], written so that a count past
    the end of the list is not unfolded row by row. *)
Definition skip_rows {A} (n : Z) (l : list A) : list A :=
  if Z.of_nat (List.length l) <=? n then [] else skipn (Z.to_nat n) l.

Definition first_rows {A} (n : Z) (l : list A) : list A :=
  if Z.of_nat (List.length l) <=? n then l else firstn (Z.to_nat n) l.

(** OFFSET: a negative count skips nothing. *)
Definition offset {row} (n : Z) (q : query row) : query row :=
  mkQuery (fun d => skip_rows n (select q d)) (binds q ++ [n]).

(** LIMIT: a negative count means no bound. *)
Definition limit {row} (n : Z) (q : query row) : query row :=
  mkQuery (fun d => if n <? 0 then select q d
                    else first_rows n (select q d))
          (binds q ++ [n]).

(** Running a statement.  The driver raises [OverflowError] when a bound
    parameter does not fit in 64 bits.  A rowid and a row count always
    fit, so with such a parameter the statement could select nothing
    (no row has that identifier, no table has that many rows to skip):
    the error is raised where the selection is empty. *)
Definition execute {row} (q : query row) (d : Database)
  : outcome (list row) :=
  match select q d with
  | [] =>
      if forallb fits_int64 (binds q) then Returned []
      else Raised int_too_large
  | rows => Returned rows
  end.

Definition all {row} (q : query row) : Handler (list row) :=
  fun s => (execute q (working s), s).

Definition first {row} (q : query row) : Handler (option row) :=
  fun s =>
    match execute q (working s) with
    | Returned rows => (Returned (hd_error rows), s)
    | Raised e => (Raised e, s)
    end.

Definition count {row} (q : query row) : Handler nat :=
  fun s =>
    match execute q (working s) with
    | Returned rows => (Returned (List.length rows), s)
    | Raised e => (Raised e, s)
    end.

(** ** Writes *)

(** SQLite gives a new row of an [INTEGER PRIMARY KEY] table the rowid
    one past the largest in use, and 1 in an empty table.  (Its search
    for a free rowid once the largest possible one, 2^63 - 1, is in use
    is not modelled: the application's tables start empty or seeded and
    grow by one identifier per insert.) *)
Definition next_rowid (ids : list Z) : Z :=
  match ids with
  | [] => 1
  | i :: ids' => 1 + fold_left Z.max ids' i
  end.

(** The object built from [product.dict()], with the identifier and the
    [created_at] default its INSERT gives it. *)
Definition new_product (kw : ProductCreate.t) (now : datetime)
  (d : Database) : Product.t :=
  {| Product.id := next_rowid (map Product.id (products d));
     Product.name := ProductCreate.name kw;
     Product.description := ProductCreate.description kw;
     Product.price := ProductCreate.price kw;
     Product.in_stock := ProductCreate.in_stock kw;
     Product.created_at := now |}.

(** The same for an object built from [user.dict()]. *)
Definition new_user (kw : UserCreate.t) (now : datetime)
  (d : Database) : User.t :=
  {| User.id := next_rowid (map User.id (users d));
     User.username := UserCreate.username kw;
     User.email := UserCreate.email kw;
     User.full_name := UserCreate.full_name kw;
     User.created_at := now |}.

(** The row a product object is stored as. *)
Definition stored_product (obj : Product.t) : Product.t :=
  {| Product.id := Product.id obj;
     Product.name := Product.name obj;
     Product.description := Product.description obj;
     Product.price := stored_real (Product.price obj);
     Product.in_stock := Product.in_stock obj;
     Product.created_at := Product.created_at obj |}.

(** The [setattr] loop of [update_product] over [product.dict().items()]:
    the four fields of [ProductCreate] are overwritten, [id] and
    [created_at] stay. *)
Definition setattrs (p : Product.t) (kw : ProductCreate.t) : Product.t :=
  {| Product.id := Product.id p;
     Product.name := ProductCreate.name kw;
     Product.description := ProductCreate.description kw;
     Product.price := ProductCreate.price kw;
     Product.in_stock := ProductCreate.in_stock kw;
     Product.created_at := Product.created_at p |}.

(** The four attributes of [obj] written over those of a stored row. *)
Definition overwrite (r obj : Product.t) : Product.t :=
  {| Product.id := Product.id r;
     Product.name := Product.name obj;
     Product.description := Product.description obj;
     Product.price := Product.price obj;
     Product.in_stock := Product.in_stock obj;
     Product.created_at := Product.created_at r |}.

(** INSERT INTO products: [price] is [nullable=False]. *)
Definition INSERT_product (obj : Product.t) (d : Database)
  : outcome Database :=
  if value_is_NULL (Product.price obj)
  then Raised price_is_NULL
  else Returned (with_products d (products d ++ [stored_product obj])).

(** INSERT INTO users: [username] and [email] are [unique=True]. *)
Definition INSERT_user (obj : User.t) (d : Database) : outcome Database :=
  if existsb (fun u => String.eqb (User.username u) (User.username obj))
             (users d)
  then Raised (IntegrityError "UNIQUE constraint failed: users.username")
  else if existsb (fun u => String.eqb (User.email u) (User.email obj))
                  (users d)
  then Raised (IntegrityError "UNIQUE constraint failed: users.email")
  else Returned (with_users d (users d ++ [obj])).

(** UPDATE products SET ... WHERE id = ?, by the primary key of the
    object. *)
Definition UPDATE_product (obj : Product.t) (d : Database)
  : outcome Database :=
  if value_is_NULL (Product.price obj)
  then Raised price_is_NULL
  else Returned
         (with_products d
            (map (fun r => if Product.id r =? Product.id obj
                           then stored_product (overwrite r obj) else r)
                 (products d))).

(** DELETE FROM products WHERE id = ?. *)
Definition DELETE_product (obj : Product.t) (d : Database)
  : outcome Database :=
  Returned
    (with_products d
       (filter (fun r => negb (Product.id r =? Product.id obj))
               (products d))).

Definition apply_write (w : write) (d : Database) : outcome Database :=
  match w with
  | Insert_Product obj => INSERT_product obj d
  | Insert_User obj => INSERT_user obj d
  | Update_Product obj => UPDATE_product obj d
  | Delete_Product obj => DELETE_product obj d
  end.

(** The flush: the pending writes, one statement after the other, up to
    the first that fails. *)
Fixpoint flush (ws : list write) (d : Database) : outcome Database :=
  match ws with
  | [] => Returned d
  | w :: ws' =>
      match apply_write w d with
      | Returned d' => flush ws' d'
      | Raised e => Raised e
      end
  end.

Definition add_pending (w : write) (s : Session) : Session :=
  {| committed := committed s;
     working := working s;
     utcnow := utcnow s;
     pending := pending s ++ [w] |}.

(** [db.add(obj)]: the object is pending; its INSERT is sent by the
    flush of [db.commit()].  The session is made with [autoflush=False]
    and no handler runs a statement between the two calls, so the
    identifier the flush gives the object is already the next rowid
    here. *)
Definition add_Product (kw : ProductCreate.t) : Handler Product.t :=
  fun s =>
    let obj := new_product kw (utcnow s) (working s) in
    (Returned obj, add_pending (Insert_Product obj) s).

Definition add_User (kw : UserCreate.t) : Handler User.t :=
  fun s =>
    let obj := new_user kw (utcnow s) (working s) in
    (Returned obj, add_pending (Insert_User obj) s).

(** The [setattr] calls on a loaded object: the object is dirty. *)
Definition update_Product (p : Product.t) (kw : ProductCreate.t)
  : Handler Product.t :=
  fun s =>
    let obj := setattrs p kw in
    (Returned obj, add_pending (Update_Product obj) s).

(** [db.delete(obj)]. *)
Definition delete_Product (p : Product.t) : Handler unit :=
  fun s => (Returned tt, add_pending (Delete_Product p) s).

(** [db.commit()]: flush, then COMMIT.  When a statement of the flush
    fails its exception is raised and nothing is made durable. *)
Definition commit : Handler unit :=
  fun s =>
    match flush (pending s) (working s) with
    | Returned d =>
        (Returned tt,
         {| committed := d; working := d; utcnow := utcnow s;
            pending := [] |})
    | Raised e => (Raised e, s)
    end.

(** [db.bulk_save_objects(objects)]: the INSERTs are sent at once, inside
    the open transaction. *)
Definition bulk_save_object (w : write) : Handler unit :=
  fun s =>
    match apply_write w (working s) with
    | Returned d =>
        (Returned tt,
         {| committed := committed s; working := d; utcnow := utcnow s;
            pending := pending s |})
    | Raised e => (Raised e, s)
    end.

Definition bulk_save_Products (objects : list ProductCreate.t)
  : Handler unit :=
  for_each objects
    (fun kw s =>
       bulk_save_object
         (Insert_Product (new_product kw (utcnow s) (working s))) s).

Definition bulk_save_Users (objects : list UserCreate.t) : Handler unit :=
  for_each objects
    (fun kw s =>
       bulk_save_object
         (Insert_User (new_user kw (utcnow s) (working s))) s).

(** [db.refresh(obj)]: the row is read again by primary key; SQLAlchemy
    raises when it is gone. *)
Definition refresh_Product (p : Product.t) : Handler Product.t :=
  r <- first (filter_ (ColumnEq Product.id (Product.id p)) query_Product) ;;
  match r with
  | Some row => ret row
  | None => raise (InvalidRequestError "Could not refresh instance")
  end.

Definition refresh_User (u : User.t) : Handler User.t :=
  r <- first (filter_ (ColumnEq User.id (User.id u)) query_User) ;;
  match r with
  | Some row => ret row
  | None => raise (InvalidRequestError "Could not refresh instance")
  end.

(** ** Route handlers *)

(** What a handler hands back to the framework: a row or a list of rows
    for the routes with a [response_model], a JSON object otherwise. *)
Inductive json : Type :=
| JString (s : string)
| JInt (n : Z).

Inductive content : Type :=
| ProductResponse (p : Product.t)
| ProductResponseList (l : list Product.t)
| UserResponse (u : User.t)
| UserResponseList (l : list User.t)
| JsonObject (fields : list (string * json)).

Definition root : Handler content :=
  ret (JsonObject
         [("message", JString "Welcome to the Example API");
          ("dashboard",
           JString "Visit /__radar to see the debugging dashboard")]).

Definition list_products (skip limit_ : Z) (in_stock_only : bool)
  : Handler content :=
  let q := query_Product in
  let q :=
    if in_stock_only
    then filter_ (PyBool (py_is Product_in_stock PyTrue)) q
    else q in
  products <- all (limit limit_ (offset skip q)) ;;
  ret (ProductResponseList products).

Definition get_product (product_id : Z) : Handler content :=
  product <- first (filter_ (ColumnEq Product.id product_id)
                            query_Product) ;;
  match product with
  | None => raise (HTTPException 404 "Product not found")
  | Some p => ret (ProductResponse p)
  end.

Definition create_product (product : ProductCreate.t) : Handler content :=
  db_product <- add_Product product ;;
  commit ;;
  db_product <- refresh_Product db_product ;;
  ret (ProductResponse db_product).

Definition update_product (product_id : Z) (product : ProductCreate.t)
  : Handler content :=
  db_product <- first (filter_ (ColumnEq Product.id product_id)
                               query_Product) ;;
  match db_product with
  | None => raise (HTTPException 404 "Product not found")
  | Some p =>
      db_product <- update_Product p product ;;
      commit ;;
      db_product <- refresh_Product db_product ;;
      ret (ProductResponse db_product)
  end.

Definition delete_product (product_id : Z) : Handler content :=
  db_product <- first (filter_ (ColumnEq Product.id product_id)
                               query_Product) ;;
  match db_product with
  | None => raise (HTTPException 404 "Product not found")
  | Some p =>
      delete_Product p ;;
      commit ;;
      ret (JsonObject [("message", JString "Product deleted successfully")])
  end.

Definition list_users (skip limit_ : Z) : Handler content :=
  users <- all (limit limit_ (offset skip query_User)) ;;
  ret (UserResponseList users).

Definition get_user (user_id : Z) : Handler content :=
  user <- first (filter_ (ColumnEq User.id user_id)
                         query_User) ;;
  match user with
  | None => raise (HTTPException 404 "User not found")
  | Some u => ret (UserResponse u)
  end.

Definition create_user (user : UserCreate.t) : Handler content :=
  existing_user <-
    first (filter_
             (ColumnExpr
                (fun u =>
                   String.eqb (User.username u) (UserCreate.username user)
                   || String.eqb (User.email u) (UserCreate.email user)))
             query_User) ;;
  match existing_user with
  | Some _ =>
      raise (HTTPException 400
               "User with this username or email already exists")
  | None =>
      db_user <- add_User user ;;
      commit ;;
      db_user <- refresh_User db_user ;;
      ret (UserResponse db_user)
  end.

(** [time.sleep(0.2)] only takes time and is left out. *)
Definition slow_query_example : Handler content :=
  products <- all query_Product ;;
  for_each (firstn 3 products)
    (fun _ => first (filter_ (ColumnEq User.id 1)
                             query_User)) ;;
  ret (JsonObject
         [("message", JString "This endpoint performs slow queries");
          ("product_count", JInt (Z.of_nat (List.length products)))]).

Definition trigger_error : Handler content :=
  raise (ValueError "This is an example error for demonstration purposes").

Definition health_check : Handler content :=
  ret (JsonObject [("status", JString "healthy")]).

(** ** The application: routes, parameter validation, dispatch *)

Inductive http_method : Type := GET | POST | PUT | DELETE.

Inductive endpoint : Type :=
| ep_root
| ep_list_products
| ep_get_product
| ep_create_product
| ep_update_product
| ep_delete_product
| ep_list_users
| ep_get_user
| ep_create_user
| ep_slow_query_example
| ep_trigger_error
| ep_health_check.

Record route : Type := mkRoute {
  route_method : http_method;
  route_path : string;
  route_endpoint : endpoint;
  route_status_code : Z
}.

(** The routes the [@app.get], [@app.post], [@app.put] and [@app.delete]
    decorators register, in source order; the status code is 200 unless
    the decorator sets [status_code].  What [Radar] mounts lives under
    [dashboard_path], "/__radar", apart from these. *)
Definition routes : list route :=
  [ mkRoute GET "/" ep_root 200;
    mkRoute GET "/products" ep_list_products 200;
    mkRoute GET "/products/{product_id}" ep_get_product 200;
    mkRoute POST "/products" ep_create_product 201;
    mkRoute PUT "/products/{product_id}" ep_update_product 200;
    mkRoute DELETE "/products/{product_id}" ep_delete_product 200;
    mkRoute GET "/users" ep_list_users 200;
    mkRoute GET "/users/{user_id}" ep_get_user 200;
    mkRoute POST "/users" ep_create_user 201;
    mkRoute GET "/slow-query" ep_slow_query_example 200;
    mkRoute GET "/error" ep_trigger_error 200;
    mkRoute GET "/health" ep_health_check 200 ].

Definition http_method_eqb (a b : http_method) : bool :=
  match a, b with
  | GET, GET | POST, POST | PUT, PUT | DELETE, DELETE => true
  | _, _ => false
  end.

Definition endpoint_eqb (a b : endpoint) : bool :=
  match a, b with
  | ep_root, ep_root
  | ep_list_products, ep_list_products
  | ep_get_product, ep_get_product
  | ep_create_product, ep_create_product
  | ep_update_product, ep_update_product
  | ep_delete_product, ep_delete_product
  | ep_list_users, ep_list_users
  | ep_get_user, ep_get_user
  | ep_create_user, ep_create_user
  | ep_slow_query_example, ep_slow_query_example
  | ep_trigger_error, ep_trigger_error
  | ep_health_check, ep_health_check => true
  | _, _ => false
  end.

Definition status_code_of (e : endpoint) : Z :=
  match find (fun r => endpoint_eqb (route_endpoint r) e) routes with
  | Some r => route_status_code r
  | None => 200
  end.

(** [Query(default, ge=..., le=...)]: the default when the parameter is
    absent, [None] when the value given is out of range. *)
Definition Query (default : Z) (ge le : option Z) (given : option Z)
  : option Z :=
  match given with
  | None => Some default
  | Some v =>
      let ge_ok := match ge with Some b => b <=? v | None => true end in
      let le_ok := match le with Some b => v <=? b | None => true end in
      if ge_ok && le_ok then Some v else None
  end.

(** The value a parameter with a default takes when the request leaves it
    out. *)
Definition or_default {A} (default : A) (given : option A) : A :=
  match given with
  | Some v => v
  | None => default
  end.

(** A request that matched a route and whose path parameters, query
    parameters and body parsed to their declared types ([int], [bool],
    [ProductCreate], [UserCreate]); query parameters may be absent.  A
    request that does not parse is answered 422 by the framework on any
    route, before [dispatch]; it is not among these. *)
Inductive request : Type :=
| req_root
| req_list_products (skip limit_ : option Z) (in_stock_only : option bool)
| req_get_product (product_id : Z)
| req_create_product (product : ProductCreate.body)
| req_update_product (product_id : Z) (product : ProductCreate.body)
| req_delete_product (product_id : Z)
| req_list_users (skip limit_ : option Z)
| req_get_user (user_id : Z)
| req_create_user (user : UserCreate.t)
| req_slow_query_example
| req_trigger_error
| req_health_check.

Definition endpoint_of (r : request) : endpoint :=
  match r with
  | req_root => ep_root
  | req_list_products _ _ _ => ep_list_products
  | req_get_product _ => ep_get_product
  | req_create_product _ => ep_create_product
  | req_update_product _ _ => ep_update_product
  | req_delete_product _ => ep_delete_product
  | req_list_users _ _ => ep_list_users
  | req_get_user _ => ep_get_user
  | req_create_user _ => ep_create_user
  | req_slow_query_example => ep_slow_query_example
  | req_trigger_error => ep_trigger_error
  | req_health_check => ep_health_check
  end.

(** The handler call the framework makes once the parsed parameters
    pass the range validation of their [Query] declarations; [None] when
    one does not. *)
Definition dispatch (r : request) : option (Handler content) :=
  match r with
  | req_root => Some root
  | req_list_products skip limit_ in_stock_only =>
      match Query 0 (Some 0) None skip,
            Query 10 (Some 1) (Some 100) limit_ with
      | Some skip, Some limit_ =>
          Some (list_products skip limit_ (or_default false in_stock_only))
      | _, _ => None
      end
  | req_get_product product_id => Some (get_product product_id)
  | req_create_product product =>
      Some (create_product (ProductCreate.parse product))
  | req_update_product product_id product =>
      Some (update_product product_id (ProductCreate.parse product))
  | req_delete_product product_id => Some (delete_product product_id)
  | req_list_users skip limit_ =>
      match Query 0 (Some 0) None skip,
            Query 10 (Some 1) (Some 100) limit_ with
      | Some skip, Some limit_ => Some (list_users skip limit_)
      | _, _ => None
      end
  | req_get_user user_id => Some (get_user user_id)
  | req_create_user user => Some (create_user user)
  | req_slow_query_example => Some slow_query_example
  | req_trigger_error => Some trigger_error
  | req_health_check => Some health_check
  end.

(** What the client gets: the handler's return value under the route's
    status code; the JSON detail of an [HTTPException] under its own
    status code; 422 when parameter validation fails; and for any other
    exception no response of the application at all, it propagates out of
    it. *)
Inductive response : Type :=
| Response (status_code : Z) (body : content)
| ErrorResponse (status_code : Z) (detail : string)
| ValidationError
| Unhandled (e : exn).

Definition respond (status_code : Z) (r : outcome content) : response :=
  match r with
  | Returned c => Response status_code c
  | Raised (HTTPException code detail) => ErrorResponse code detail
  | Raised e => Unhandled e
  end.

(** [get_db]: a fresh session per request, closed when the handler is
    done; what was not committed is dropped. *)
Definition get_db (now : datetime) (db : Database) : Session :=
  {| committed := db; working := db; utcnow := now; pending := [] |}.

Definition handle (now : datetime) (r : request) (db : Database)
  : response * Database :=
  match dispatch r with
  | None => (ValidationError, db)
  | Some h =>
      let (res, s) := h (get_db now db) in
      (respond (status_code_of (endpoint_of r)) res, committed s)
  end.

(** ** Sample data *)

(** The rows the [__main__] block seeds an empty database with; the
    prices 999.99, 29.99, 149.99, 499.99 and 199.99 as binary64. *)
Definition sample_products : list ProductCreate.t :=
  [ ProductCreate.mk "Laptop" (Some "High-performance laptop")
      0x408f3feb851eb852 true;
    ProductCreate.mk "Mouse" (Some "Wireless mouse")
      0x403dfd70a3d70a3d true;
    ProductCreate.mk "Keyboard" (Some "Mechanical keyboard")
      0x4062bfae147ae148 false;
    ProductCreate.mk "Monitor" (Some "4K display")
      0x407f3fd70a3d70a4 true;
    ProductCreate.mk "Headphones" (Some "Noise-cancelling")
      0x4068ffae147ae148 true ].

Definition sample_users : list UserCreate.t :=
  [ UserCreate.mk "johndoe" "john@example.com" (Some "John Doe");
    UserCreate.mk "janedoe" "jane@example.com" (Some "Jane Doe");
    UserCreate.mk "admin" "admin@example.com" (Some "Admin User") ].

Definition seed : Handler unit :=
  n <- count query_Product ;;
  if (n =? 0)%nat
  then
    bulk_save_Products sample_products ;;
    bulk_save_Users sample_users ;;
    commit
  else ret tt.

Definition empty_database : Database := {| products := []; users := [] |}.

Definition sample_database (now : datetime) : Database :=
  committed (snd (seed (get_db now empty_database))).

(** ** The REST surface, as a table of operations per resource *)

Inductive resource : Type := res_products | res_users.

Inductive operation : Type := op_list | op_get | op_create | op_update | op_delete.

Definition collection_path (r : resource) : string :=
  match r with
  | res_products => "/products"
  | res_users => "/users"
  end.

(** The HTTP method an operation is served under, and whether it is served
    on the collection path or on the path of one item below it. *)
Definition operation_method (op : operation) : http_method :=
  match op with
  | op_list | op_get => GET
  | op_create => POST
  | op_update => PUT
  | op_delete => DELETE
  end.

Definition on_item (op : operation) : bool :=
  match op with
  | op_list | op_create => false
  | op_get | op_update | op_delete => true
  end.

Definition serves (r : resource) (op : operation) (rt : route) : bool :=
  http_method_eqb (route_method rt) (operation_method op)
  && (if on_item op
      then String.prefix (String.append (collection_path r) "/{")
                         (route_path rt)
      else String.eqb (route_path rt) (collection_path r)).

Definition exposes (r : resource) (op : operation) : bool :=
  existsb (serves r op) routes.

Definition is_product_operation (e : endpoint) : bool :=
  match e with
  | ep_create_product | ep_update_product | ep_delete_product
  | ep_list_products | ep_get_product => true
  | _ => false
  end.

Definition is_user_operation (e : endpoint) : bool :=
  match e with
  | ep_create_user | ep_list_users | ep_get_user => true
  | _ => false
  end.

(** ** Schema constraints *)

(** [unique=True] on [User.username] and on [User.email]. *)
Definition users_unique (db : Database) : Prop :=
  NoDup (map User.username (users db)) /\ NoDup (map User.email (users db)).

(** [primary_key=True] on [Product.id] and on [User.id]. *)
Definition primary_keys (db : Database) : Prop :=
  NoDup (map Product.id (products db)) /\ NoDup (map User.id (users db)).

(** Executable checks of the two, for concrete databases. *)
Fixpoint distinctb {A} (eqb : A -> A -> bool) (l : list A) : bool :=
  match l with
  | [] => true
  | x :: l' => negb (existsb (eqb x) l') && distinctb eqb l'
  end.

Definition users_uniqueb (db : Database) : bool :=
  distinctb String.eqb (map User.username (users db))
  && distinctb String.eqb (map User.email (users db)).

Definition primary_keysb (db : Database) : bool :=
  distinctb Z.eqb (map Product.id (products db))
  && distinctb Z.eqb (map User.id (users db)).

(** The page of [l] a list handler returns for validated [skip] and
    [limit]. *)
Definition page {A} (skip limit_ : Z) (l : list A) : list A :=
  firstn (Z.to_nat limit_) (skipn (Z.to_nat skip) l).

(** ** Further vocabulary for the properties *)


(** The endpoints whose handler calls [db.commit()]. *)
Definition commits (e : endpoint) : bool :=
  match e with
  | ep_create_product | ep_update_product | ep_delete_product
  | ep_create_user => true
  | _ => false
  end.

(** What a list handler answers for validated [skip] and [limit] on the
    rows [l]: the page, or the driver's error for a [skip] that does not
    fit in 64 bits. *)
Definition listing {A} (wrap : list A -> content) (skip limit_ : Z)
  (l : list A) : response :=
  match page skip limit_ l with
  | [] => if skip <? 2 ^ 63 then Response 200 (wrap []) else Unhandled int_too_large
  | rows => Response 200 (wrap rows)
  end.

(** The requests of a run of the server, one after the other: every
    handler is an [async def] that never awaits, so a request is done
    before the next one starts.  Each comes with the clock reading it is
    served at. *)
Definition serve (requests : list (datetime * request)) (db : Database)
  : Database :=
  fold_left (fun d tr => snd (handle (fst tr) (snd tr) d)) requests db.

(** * Properties *)

(** ** Lists, rowids *)

Lemma hd_error_filter {A} (f : A -> bool) (l : list A) :
  hd_error (filter f l) = find f l.
Proof.
  induction l as [|x l IH]; simpl; [reflexivity|].
  destruct (f x); simpl; auto.
Qed.

Lemma find_app_last {A} (f : A -> bool) (l : list A) (r : A) :
  (forall x, In x l -> f x = false) -> f r = true ->
  find f (l ++ [r]) = Some r.
Proof.
  intros Hl Hr. induction l as [|x l IH]; simpl.
  - now rewrite Hr.
  - rewrite (Hl x (or_introl eq_refl)). apply IH.
    intros y Hy. apply Hl. now right.
Qed.

Lemma find_none_iff {A} (f : A -> bool) (l : list A) :
  find f l = None <-> forall x, In x l -> f x = false.
Proof.
  split; [apply find_none|].
  induction l as [|x l IH]; simpl; intros H; [reflexivity|].
  rewrite (H x (or_introl eq_refl)). apply IH. intros y Hy. apply H. now right.
Qed.

Lemma fold_left_max_bounds (l : list Z) (a : Z) :
  a <= fold_left Z.max l a /\ forall x, In x l -> x <= fold_left Z.max l a.
Proof.
  revert a. induction l as [|y l IH]; intros a; simpl.
  - split; [lia | intros x []].
  - destruct (IH (Z.max a y)) as [H1 H2]. split; [lia|].
    intros x [<-|Hx]; [lia | now apply H2].
Qed.

Lemma next_rowid_above (ids : list Z) (i : Z) :
  In i ids -> i < next_rowid ids.
Proof.
  destruct ids as [|j ids]; cbn [next_rowid In]; [intros []|].
  destruct (fold_left_max_bounds ids j) as [H1 H2].
  intros [<-|Hi]; [lia | specialize (H2 _ Hi); lia].
Qed.

Lemma next_rowid_fresh (ids : list Z) : ~ In (next_rowid ids) ids.
Proof. intros H. apply next_rowid_above in H. lia. Qed.

Lemma distinctb_NoDup {A} (eqb : A -> A -> bool) (l : list A) :
  (forall x y, eqb x y = true <-> x = y) ->
  distinctb eqb l = true -> NoDup l.
Proof.
  intros Heq. induction l as [|x l IH]; simpl; intros H; constructor.
  - apply andb_prop in H as [H _]. intros Hin.
    apply negb_true_iff in H.
    assert (existsb (eqb x) l = true) as E
        by (apply existsb_exists; exists x; split; [assumption | now apply Heq]).
    congruence.
  - apply IH. now apply andb_prop in H as [_ H].
Qed.

Lemma users_uniqueb_sound (db : Database) :
  users_uniqueb db = true -> users_unique db.
Proof.
  unfold users_uniqueb, users_unique. intros H.
  apply andb_prop in H as [H1 H2].
  split; eapply distinctb_NoDup; eauto using String.eqb_eq.
Qed.

Lemma primary_keysb_sound (db : Database) :
  primary_keysb db = true -> primary_keys db.
Proof.
  unfold primary_keysb, primary_keys. intros H.
  apply andb_prop in H as [H1 H2].
  split; eapply distinctb_NoDup; eauto using Z.eqb_eq.
Qed.

(** ** Running statements *)

Lemma skip_rows_skipn {A} (n : Z) (l : list A) :
  skip_rows n l = skipn (Z.to_nat n) l.
Proof.
  unfold skip_rows. destruct (Z.leb_spec (Z.of_nat (List.length l)) n).
  - symmetry. apply skipn_all2. lia.
  - reflexivity.
Qed.

Lemma first_rows_firstn {A} (n : Z) (l : list A) :
  first_rows n l = firstn (Z.to_nat n) l.
Proof.
  unfold first_rows. destruct (Z.leb_spec (Z.of_nat (List.length l)) n).
  - symmetry. apply firstn_all2. lia.
  - reflexivity.
Qed.

Lemma filter_nil_find {A} (f : A -> bool) (l : list A) :
  filter f l = [] -> find f l = None.
Proof. intros H. rewrite <- hd_error_filter, H. reflexivity. Qed.

Lemma first_ColumnEq {row} (column : row -> Z) (n : Z) (base : query row)
  (s : Session) :
  binds base = [] ->
  first (filter_ (ColumnEq column n) base) s =
  match find (fun r => column r =? n) (select base (working s)) with
  | Some r => (Returned (Some r), s)
  | None =>
      if fits_int64 n then (Returned None, s) else (Raised int_too_large, s)
  end.
Proof.
  intros Hb. unfold first, execute, filter_. cbn [select binds satisfies].
  rewrite Hb. cbn [app criterion_binds forallb]. rewrite andb_true_r.
  rewrite <- (hd_error_filter (fun r => column r =? n)).
  destruct (filter _ _) as [|r l]; cbn [hd_error]; [|reflexivity].
  now destruct (fits_int64 n).
Qed.

Lemma first_ColumnExpr {row} (f : row -> bool) (base : query row)
  (s : Session) :
  binds base = [] ->
  first (filter_ (ColumnExpr f) base) s =
  (Returned (find f (select base (working s))), s).
Proof.
  intros Hb. unfold first, execute, filter_. cbn [select binds satisfies].
  rewrite Hb. cbn [app criterion_binds forallb].
  rewrite <- (hd_error_filter f). now destruct (filter _ _).
Qed.

Lemma all_base {row} (base : query row) (s : Session) :
  binds base = [] ->
  all base s = (Returned (select base (working s)), s).
Proof.
  intros Hb. unfold all, execute. rewrite Hb. cbn [forallb].
  now destruct (select _ _).
Qed.

Lemma fits_int64_iff (n : Z) :
  fits_int64 n = true <-> - 2 ^ 63 <= n < 2 ^ 63.
Proof.
  unfold fits_int64. rewrite andb_true_iff, Z.leb_le, Z.ltb_lt. tauto.
Qed.

Lemma rowid_not_taken {A} (id : A -> Z) (l : list A) (x : A) :
  In x l -> (id x =? next_rowid (map id l)) = false.
Proof.
  intros Hx. apply Z.eqb_neq. intros E.
  apply (next_rowid_fresh (map id l)). rewrite <- E. now apply in_map.
Qed.

Lemma find_id {A} (id : A -> Z) (i : Z) (l : list A) (x : A) :
  find (fun r => id r =? i) l = Some x -> In x l /\ id x = i.
Proof.
  intros H. apply find_some in H as [H1 H2]. split; [assumption|].
  now apply Z.eqb_eq.
Qed.


Lemma filter_PyBool_false {row} (q : query row) (d : Database) :
  select (filter_ (PyBool false) q) d = [].
Proof. unfold filter_. cbn [select]. induction (select q d); simpl; auto. Qed.

Lemma for_each_reads {A B} (l : list A) (body : A -> Handler B) :
  (forall x s, exists b, body x s = (Returned b, s)) ->
  forall s, for_each l body s = (Returned tt, s).
Proof.
  intros Hb. induction l as [|x l IH]; intros s; simpl; [reflexivity|].
  unfold bind. destruct (Hb x s) as [b ->]. apply IH.
Qed.

(** ** Each request, end to end *)

Lemma handle_get_product (now : datetime) (product_id : Z) (db : Database) :
  handle now (req_get_product product_id) db =
  match find (fun p => Product.id p =? product_id) (products db) with
  | Some p => (Response 200 (ProductResponse p), db)
  | None =>
      if fits_int64 product_id
      then (ErrorResponse 404 "Product not found", db)
      else (Unhandled int_too_large, db)
  end.
Proof.
  unfold handle. cbn [dispatch]. unfold get_product, bind.
  rewrite first_ColumnEq by reflexivity.
  cbn [get_db working select query_Product].
  destruct (find _ _); [reflexivity|]. now destruct (fits_int64 _).
Qed.

Lemma handle_get_user (now : datetime) (user_id : Z) (db : Database) :
  handle now (req_get_user user_id) db =
  match find (fun u => User.id u =? user_id) (users db) with
  | Some u => (Response 200 (UserResponse u), db)
  | None =>
      if fits_int64 user_id
      then (ErrorResponse 404 "User not found", db)
      else (Unhandled int_too_large, db)
  end.
Proof.
  unfold handle. cbn [dispatch]. unfold get_user, bind.
  rewrite first_ColumnEq by reflexivity.
  cbn [get_db working select query_User].
  destruct (find _ _); [reflexivity|]. now destruct (fits_int64 _).
Qed.

Lemma handle_create_product (now : datetime) (product : ProductCreate.body)
  (db : Database) :
  handle now (req_create_product product) db =
  if is_nan (ProductCreate.body_price product)
  then (Unhandled price_is_NULL, db)
  else
    (Response 201
       (ProductResponse
          (stored_product
             (new_product (ProductCreate.parse product) now db))),
     with_products db
       (products db
        ++ [stored_product
              (new_product (ProductCreate.parse product) now db)])).
Proof.
  unfold handle. cbn [dispatch].
  unfold create_product, bind, add_Product, commit, add_pending, get_db.
  cbn [pending working utcnow committed app flush apply_write].
  unfold INSERT_product, value_is_NULL.
  cbn [new_product Product.price ProductCreate.parse ProductCreate.price].
  destruct (is_nan _); [reflexivity|].
  unfold refresh_Product, bind. rewrite first_ColumnEq by reflexivity.
  cbn [working select query_Product with_products products].
  rewrite find_app_last; [reflexivity| |apply Z.eqb_refl].
  intros x Hx. apply (rowid_not_taken Product.id _ _ Hx).
Qed.

Lemma find_map_update (g : Product.t -> Product.t) (i : Z)
  (l : list Product.t) (p : Product.t) :
  (forall r, Product.id (g r) = Product.id r) ->
  find (fun x => Product.id x =? i) l = Some p ->
  find (fun x => Product.id x =? i)
       (map (fun r => if Product.id r =? i then g r else r) l)
  = Some (g p).
Proof.
  intros Hg. induction l as [|a l IH]; simpl; [discriminate|].
  destruct (Product.id a =? i) eqn:E; simpl.
  - rewrite Hg, E. now intros [= ->].
  - rewrite E. exact IH.
Qed.

Lemma handle_update_product (now : datetime) (product_id : Z)
  (product : ProductCreate.body) (db : Database) :
  handle now (req_update_product product_id product) db =
  match find (fun p => Product.id p =? product_id) (products db) with
  | Some p =>
      if is_nan (ProductCreate.body_price product)
      then (Unhandled price_is_NULL, db)
      else
        (Response 200
           (ProductResponse
              (stored_product (setattrs p (ProductCreate.parse product)))),
         with_products db
           (map (fun r =>
                   if Product.id r =? product_id
                   then stored_product
                          (setattrs r (ProductCreate.parse product))
                   else r)
                (products db)))
  | None =>
      if fits_int64 product_id
      then (ErrorResponse 404 "Product not found", db)
      else (Unhandled int_too_large, db)
  end.
Proof.
  unfold handle. cbn [dispatch]. unfold update_product, bind at 1.
  rewrite first_ColumnEq by reflexivity.
  cbn [get_db working select query_Product].
  destruct (find _ _) as [p|] eqn:F;
    [|now destruct (fits_int64 _)].
  destruct (find_id _ _ _ _ F) as [_ Hid].
  unfold bind, update_Product, commit, add_pending, get_db.
  cbn [pending working utcnow committed app flush apply_write].
  unfold UPDATE_product, value_is_NULL.
  cbn [setattrs Product.price Product.id ProductCreate.parse
         ProductCreate.price].
  destruct (is_nan _); [reflexivity|].
  unfold refresh_Product, bind. rewrite first_ColumnEq by reflexivity.
  cbn [working select query_Product with_products products].
  change (Product.id (setattrs p (ProductCreate.parse product)))
    with (Product.id p).
  change (fun r : Product.t =>
            if Product.id r =? Product.id p
            then stored_product
                   (overwrite r (setattrs p (ProductCreate.parse product)))
            else r)
    with (fun r : Product.t =>
            if Product.id r =? Product.id p
            then stored_product (setattrs r (ProductCreate.parse product))
            else r).
  rewrite Hid.
  rewrite (find_map_update
             (fun r => stored_product
                         (setattrs r (ProductCreate.parse product)))
             _ _ _ (fun _ => eq_refl) F).
  reflexivity.
Qed.

Lemma handle_delete_product (now : datetime) (product_id : Z)
  (db : Database) :
  handle now (req_delete_product product_id) db =
  match find (fun p => Product.id p =? product_id) (products db) with
  | Some _ =>
      (Response 200
         (JsonObject [("message", JString "Product deleted successfully")]),
       with_products db
         (filter (fun r => negb (Product.id r =? product_id))
                 (products db)))
  | None =>
      if fits_int64 product_id
      then (ErrorResponse 404 "Product not found", db)
      else (Unhandled int_too_large, db)
  end.
Proof.
  unfold handle. cbn [dispatch]. unfold delete_product, bind at 1.
  rewrite first_ColumnEq by reflexivity.
  cbn [get_db working select query_Product].
  destruct (find _ _) as [p|] eqn:F;
    [|now destruct (fits_int64 _)].
  destruct (find_id _ _ _ _ F) as [_ Hid].
  unfold bind, delete_Product, commit, add_pending, get_db.
  cbn [pending working utcnow committed app flush apply_write].
  unfold DELETE_product. now rewrite Hid.
Qed.

Lemma existsb_false {A} (f : A -> bool) (l : list A) :
  (forall x, In x l -> f x = false) -> existsb f l = false.
Proof.
  intros H. induction l as [|a l IH]; simpl; [reflexivity|].
  rewrite (H a (or_introl eq_refl)). apply IH. intros x Hx. apply H.
  now right.
Qed.

Lemma handle_create_user (now : datetime) (user : UserCreate.t)
  (db : Database) :
  handle now (req_create_user user) db =
  match find (fun u => String.eqb (User.username u)
                         (UserCreate.username user)
                       || String.eqb (User.email u) (UserCreate.email user))
             (users db) with
  | Some _ =>
      (ErrorResponse 400 "User with this username or email already exists",
       db)
  | None =>
      (Response 201 (UserResponse (new_user user now db)),
       with_users db (users db ++ [new_user user now db]))
  end.
Proof.
  unfold handle. cbn [dispatch]. unfold create_user, bind at 1.
  rewrite first_ColumnExpr by reflexivity.
  cbn [get_db working select query_User].
  destruct (find _ _) as [u|] eqn:F; [reflexivity|].
  unfold bind, add_User, commit, add_pending, get_db.
  cbn [pending working utcnow committed app flush apply_write].
  unfold INSERT_user. cbn [new_user User.username User.email].
  rewrite !existsb_false.
  - unfold refresh_User, bind. rewrite first_ColumnEq by reflexivity.
    cbn [working select query_User with_users users new_user User.id].
    rewrite find_app_last; [reflexivity| |apply Z.eqb_refl].
    intros x Hx. apply (rowid_not_taken User.id _ _ Hx).
  - intros x Hx. apply (find_none _ _ F) in Hx.
    now apply orb_false_elim in Hx.
  - intros x Hx. apply (find_none _ _ F) in Hx.
    now apply orb_false_elim in Hx.
Qed.

Lemma handle_slow_query_example (now : datetime) (db : Database) :
  handle now req_slow_query_example db =
  (Response 200
     (JsonObject
        [("message", JString "This endpoint performs slow queries");
         ("product_count", JInt (Z.of_nat (List.length (products db))))]),
   db).
Proof.
  unfold handle. cbn [dispatch]. unfold slow_query_example, bind at 1.
  rewrite all_base by reflexivity. unfold bind at 1.
  rewrite for_each_reads; [reflexivity|].
  intros _ s'. rewrite first_ColumnEq by reflexivity.
  destruct (find _ _); [eauto|].
  change (fits_int64 1) with true. cbn iota. eauto.
Qed.

(** ** Pages *)

Lemma Query_skip (skip : option Z) :
  Query 0 (Some 0) None skip =
  if 0 <=? or_default 0 skip then Some (or_default 0 skip) else None.
Proof. destruct skip as [v|]; simpl; [|reflexivity]. now rewrite andb_true_r. Qed.

Lemma Query_limit (limit_ : option Z) :
  Query 10 (Some 1) (Some 100) limit_ =
  if (1 <=? or_default 10 limit_) && (or_default 10 limit_ <=? 100)
  then Some (or_default 10 limit_) else None.
Proof. destruct limit_ as [v|]; reflexivity. Qed.

Lemma in_range_iff (sk lm : Z) :
  (0 <=? sk) && ((1 <=? lm) && (lm <=? 100)) = true <->
  0 <= sk /\ 1 <= lm <= 100.
Proof. rewrite !andb_true_iff, !Z.leb_le. tauto. Qed.

Lemma in_range_true (sk lm : Z) :
  0 <= sk -> 1 <= lm <= 100 ->
  (0 <=? sk) && ((1 <=? lm) && (lm <=? 100)) = true.
Proof. intros. now apply in_range_iff. Qed.


Lemma execute_page {row} (skip limit_ : Z) (q : query row) (d : Database) :
  0 <= skip -> 1 <= limit_ <= 100 ->
  forallb fits_int64 (binds q) = true ->
  execute (limit limit_ (offset skip q)) d =
  match page skip limit_ (select q d) with
  | [] => if skip <? 2 ^ 63 then Returned [] else Raised int_too_large
  | rows => Returned rows
  end.
Proof.
  intros Hs Hl Hb. unfold execute, limit, offset. cbn [select binds].
  destruct (Z.ltb_spec limit_ 0); [lia|].
  rewrite first_rows_firstn, skip_rows_skipn. fold (page skip limit_ (select q d)).
  destruct (page _ _ _); [|reflexivity].
  rewrite !forallb_app, Hb. cbn [forallb andb].
  replace (fits_int64 limit_) with true
    by (symmetry; apply fits_int64_iff; lia).
  unfold fits_int64. replace (- 2 ^ 63 <=? skip) with true
    by (symmetry; apply Z.leb_le; lia).
  cbn [andb]. rewrite !andb_true_r. reflexivity.
Qed.

Lemma handle_list_products (now : datetime) (skip limit_ : option Z)
  (in_stock_only : option bool) (db : Database) :
  handle now (req_list_products skip limit_ in_stock_only) db =
  if (0 <=? or_default 0 skip)
     && ((1 <=? or_default 10 limit_) && (or_default 10 limit_ <=? 100))
  then (listing ProductResponseList
          (or_default 0 skip) (or_default 10 limit_)
          (if or_default false in_stock_only then [] else products db), db)
  else (ValidationError, db).
Proof.
  unfold handle. cbn [dispatch]. rewrite Query_skip, Query_limit.
  destruct (0 <=? or_default 0 skip) eqn:Es; [|reflexivity].
  destruct ((1 <=? or_default 10 limit_) && (or_default 10 limit_ <=? 100))
    eqn:El; [|reflexivity].
  apply Z.leb_le in Es. apply andb_prop in El as [E1 E2].
  apply Z.leb_le in E1, E2.
  cbn [andb]. unfold list_products, bind, all, listing.
  cbn [get_db working].
  destruct (or_default false in_stock_only).
  - change (py_is Product_in_stock PyTrue) with false.
    rewrite execute_page by (try reflexivity; lia).
    rewrite filter_PyBool_false.
    replace (page _ _ (@nil Product.t)) with (@nil Product.t)
      by (unfold page; now rewrite skipn_nil, firstn_nil).
    now destruct (_ <? _).
  - rewrite execute_page by (try reflexivity; lia).
    cbn [select query_Product].
    destruct (page _ _ _); [now destruct (_ <? _)|reflexivity].
Qed.

Lemma handle_list_users (now : datetime) (skip limit_ : option Z)
  (db : Database) :
  handle now (req_list_users skip limit_) db =
  if (0 <=? or_default 0 skip)
     && ((1 <=? or_default 10 limit_) && (or_default 10 limit_ <=? 100))
  then (listing UserResponseList
          (or_default 0 skip) (or_default 10 limit_) (users db), db)
  else (ValidationError, db).
Proof.
  unfold handle. cbn [dispatch]. rewrite Query_skip, Query_limit.
  destruct (0 <=? or_default 0 skip) eqn:Es; [|reflexivity].
  destruct ((1 <=? or_default 10 limit_) && (or_default 10 limit_ <=? 100))
    eqn:El; [|reflexivity].
  apply Z.leb_le in Es. apply andb_prop in El as [E1 E2].
  apply Z.leb_le in E1, E2.
  cbn [andb]. unfold list_users, bind, all, listing.
  cbn [get_db working].
  rewrite execute_page by (try reflexivity; lia).
  cbn [select query_User].
  destruct (page _ _ _); [now destruct (_ <? _)|reflexivity].
Qed.

Lemma listing_rows {A} (wrap : list A -> content) (sk lm : Z) (l : list A)
  (code : Z) (body : content) :
  listing wrap sk lm l = Response code body ->
  code = 200 /\ body = wrap (page sk lm l).
Proof.
  unfold listing. destruct (page sk lm l) eqn:E.
  - destruct (sk <? 2 ^ 63); [|discriminate]. now intros [= <- <-].
  - now intros [= <- <-].
Qed.

Lemma listing_fits {A} (wrap : list A -> content) (sk lm : Z) (l : list A) :
  sk < 2 ^ 63 -> listing wrap sk lm l = Response 200 (wrap (page sk lm l)).
Proof.
  intros H. unfold listing. destruct (page sk lm l); [|reflexivity].
  destruct (Z.ltb_spec sk (2 ^ 63)); [reflexivity | lia].
Qed.

(** ** Lookups and deletes under a primary key *)

Section PrimaryKey.
Context {A : Type} (id : A -> Z).

Lemma find_by_key (l : list A) (x : A) :
  NoDup (map id l) -> In x l ->
  find (fun r => id r =? id x) l = Some x.
Proof.
  induction l as [|a l IH]; simpl; [intros _ []|].
  intros Hnd Hin. apply NoDup_cons_iff in Hnd as [Ha Hnd].
  destruct (Z.eqb_spec (id a) (id x)) as [E|E].
  - destruct Hin as [->|Hin]; [reflexivity|].
    exfalso. apply Ha. rewrite E. now apply in_map.
  - destruct Hin as [->|Hin]; [congruence | now apply IH].
Qed.

Lemma filter_other_keys (l : list A) (i : Z) :
  ~ In i (map id l) -> filter (fun r => negb (id r =? i)) l = l.
Proof.
  induction l as [|a l IH]; simpl; [reflexivity|].
  intros H. destruct (Z.eqb_spec (id a) i) as [E|E]; simpl.
  - exfalso. apply H. now left.
  - f_equal. apply IH. tauto.
Qed.

Lemma delete_by_key (l : list A) (x : A) :
  NoDup (map id l) -> In x l ->
  exists l1 l2,
    l = l1 ++ x :: l2 /\
    ~ In x (l1 ++ l2) /\
    filter (fun r => negb (id r =? id x)) l = l1 ++ l2.
Proof.
  intros Hnd Hin. destruct (in_split _ _ Hin) as (l1 & l2 & ->).
  exists l1, l2. rewrite map_app in Hnd. cbn [map] in Hnd.
  pose proof (NoDup_remove_2 _ _ _ Hnd) as Hout.
  rewrite <- map_app in Hout.
  split; [reflexivity|]. split.
  - intros H. apply Hout. now apply in_map.
  - rewrite map_app in Hout.
    rewrite filter_app. cbn [filter]. rewrite Z.eqb_refl. cbn [negb].
    rewrite !filter_other_keys; [reflexivity| |];
      intros H; apply Hout, in_or_app; tauto.
Qed.

Lemma NoDup_map_filter (f : A -> bool) (l : list A) :
  NoDup (map id l) -> NoDup (map id (filter f l)).
Proof.
  induction l as [|a l IH]; simpl; [trivial|].
  intros Hnd. apply NoDup_cons_iff in Hnd as [Ha Hnd].
  destruct (f a); simpl; [|now apply IH].
  constructor; [|now apply IH].
  intros H. apply Ha. apply in_map_iff in H as (y & Hy & Hin).
  apply filter_In in Hin as [Hin _]. rewrite <- Hy. now apply in_map.
Qed.
End PrimaryKey.

Lemma NoDup_snoc {A B} (f : A -> B) (l : list A) (x : A) :
  NoDup (map f l) -> (forall y, In y l -> f y <> f x) ->
  NoDup (map f (l ++ [x])).
Proof.
  intros Hnd Hx. rewrite map_app. apply NoDup_app; [assumption | |].
  - cbn. constructor; [intros [] | constructor].
  - intros a Ha [E|[]]. apply in_map_iff in Ha as (y & Hy & Hin).
    apply (Hx y Hin). congruence.
Qed.

(** ** What a request does to each table *)

Ltac by_request :=
  rewrite ?handle_get_product, ?handle_get_user, ?handle_create_product,
    ?handle_update_product, ?handle_delete_product, ?handle_create_user,
    ?handle_list_products, ?handle_list_users, ?handle_slow_query_example.

Ltac by_cases :=
  repeat match goal with
         | |- context [match find ?f ?l with _ => _ end] =>
             let F := fresh "F" in destruct (find f l) eqn:F
         | |- context [if ?b then _ else _] =>
             let E := fresh "E" in destruct b eqn:E
         end.

(** The users table changes only when [create_user] finds no stored user
    with the username or the email asked for, and then by one row at the
    end. *)
Lemma handle_users (now : datetime) (r : request) (db : Database) :
  users (snd (handle now r db)) = users db \/
  exists user,
    r = req_create_user user /\
    find (fun u => String.eqb (User.username u) (UserCreate.username user)
                   || String.eqb (User.email u) (UserCreate.email user))
         (users db) = None /\
    users (snd (handle now r db)) = users db ++ [new_user user now db].
Proof.
  destruct r; by_request;
    try (by_cases; left; reflexivity).
  destruct (find _ (users db)) eqn:F; [now left|].
  right. exists user. auto.
Qed.

(** The products table changes only through the three product writes. *)
Lemma handle_products (now : datetime) (r : request) (db : Database) :
  match endpoint_of r with
  | ep_create_product | ep_update_product | ep_delete_product => True
  | _ => products (snd (handle now r db)) = products db
  end.
Proof.
  destruct r; cbn [endpoint_of]; trivial; by_request;
    by_cases; reflexivity.
Qed.

(** ** Conflicts on user creation *)



(** ** The stock filter *)

(** C2, as stated, fails: a [skip] of 2^63 passes [Query(0, ge=0)], and
    with [in_stock_only] set the statement is still run with that OFFSET:
    the driver raises [OverflowError], nothing is returned. *)
Lemma list_products_in_stock_only_overflow :
  list_products (2 ^ 63) 10 true (get_db 2000 (sample_database 1000))
  = (Raised int_too_large, get_db 2000 (sample_database 1000)) /\
  handle 2000 (req_list_products (Some (2 ^ 63)) None (Some true))
    (sample_database 1000)
  = (Unhandled int_too_large, sample_database 1000) /\
  ~ (forall skip limit_ s,
        list_products skip limit_ true s
        = (Returned (ProductResponseList []), s)).
Proof.
  assert (list_products (2 ^ 63) 10 true
            (get_db 2000 (sample_database 1000))
          = (Raised int_too_large, get_db 2000 (sample_database 1000)))
    as E by (vm_compute; reflexivity).
  split; [exact E|]. split; [vm_compute; reflexivity|].
  intros H. rewrite H in E. discriminate E.
Qed.

(** C2, amended: [Product.in_stock is True] compares a column attribute
    with the singleton [True] and is [False]; handed to [filter] it
    selects no row, so with [in_stock_only] set and a [skip] and [limit]
    that fit in 64 bits [list_products] returns the empty list whatever
    the session holds, and a request that passes validation with a
    [skip] below 2^63 is answered 200 with the empty list. *)
Theorem list_products_in_stock_only_empty :
  py_is Product_in_stock PyTrue = false /\
  (forall skip limit_ s,
      fits_int64 skip = true -> fits_int64 limit_ = true ->
      list_products skip limit_ true s =
      (Returned (ProductResponseList []), s)) /\
  (forall now skip limit_ db,
      or_default 0 skip < 2 ^ 63 ->
      handle now (req_list_products skip limit_ (Some true)) db =
      (Response 200 (ProductResponseList []), db) \/
      handle now (req_list_products skip limit_ (Some true)) db =
      (ValidationError, db)).
Proof.
  split; [reflexivity|]. split.
  - intros skip limit_ s Hs Hl. unfold list_products, bind, all.
    change (py_is Product_in_stock PyTrue) with false.
    unfold execute.
    assert (select (limit limit_ (offset skip
                      (filter_ (PyBool false) query_Product))) (working s)
            = []) as ->.
    { unfold limit, offset. cbn [select].
      rewrite filter_PyBool_false, first_rows_firstn, skip_rows_skipn.
      rewrite skipn_nil, firstn_nil. now destruct (limit_ <? 0). }
    cbn [limit offset filter_ binds query_Product app criterion_binds
           forallb].
    now rewrite Hs, Hl.
  - intros now skip limit_ db Hs. rewrite handle_list_products.
    destruct (_ && _); [left|now right].
    cbn [or_default]. rewrite listing_fits by assumption.
    unfold page. now rewrite skipn_nil, firstn_nil.
Qed.

Lemma list_products_in_stock_only_empty_witness :
  handle 2000 (req_list_products (Some 1) (Some 2) (Some true))
    (sample_database 1000)
  = (Response 200 (ProductResponseList []), sample_database 1000).
Proof.
  destruct list_products_in_stock_only_empty as (_ & _ & H).
  destruct (H 2000 (Some 1) (Some 2) (sample_database 1000)) as [E|E].
  - cbn. lia.
  - exact E.
  - exfalso. vm_compute in E. discriminate E.
Defined.

(** ** The demonstration error *)

(** C7: [trigger_error] raises [ValueError] in every session; the request
    to /error is never answered with a response of the application,
    normal or error, the exception leaves it unhandled, and the database
    is untouched. *)
Theorem trigger_error_unhandled :
  (forall s,
      trigger_error s =
      (Raised (ValueError
                 "This is an example error for demonstration purposes"), s)) /\
  (forall now db,
      handle now req_trigger_error db =
      (Unhandled (ValueError
                    "This is an example error for demonstration purposes"),
       db)) /\
  (forall now db code body,
      fst (handle now req_trigger_error db) <> Response code body).
Proof.
  split; [reflexivity|]. split; [reflexivity|].
  intros now db code body. cbn. discriminate.
Qed.

(** ** Product creation *)




(** ** The REST surface *)

(** C3, as stated, fails: no route serves an update of a user, and none
    a delete. *)
Lemma users_have_no_update_nor_delete :
  exposes res_users op_update = false /\
  exposes res_users op_delete = false /\
  ~ (forall r op, exposes r op = true).
Proof.
  split; [reflexivity|]. split; [reflexivity|].
  intros H. specialize (H res_users op_update). discriminate.
Qed.

(** C3, amended: the routing table serves list, get, create, update and
    delete for products, and list, get and create for users; its only PUT
    route and its only DELETE route are those of update_product and
    delete_product. *)
Theorem rest_surface :
  (forall op, exposes res_products op = true) /\
  (forall op, exposes res_users op =
              match op with
              | op_list | op_get | op_create => true
              | op_update | op_delete => false
              end) /\
  map route_endpoint
      (filter (fun rt => http_method_eqb (route_method rt) PUT
                         || http_method_eqb (route_method rt) DELETE)
              routes)
  = [ep_update_product; ep_delete_product].
Proof.
  split; [intros []; reflexivity|].
  split; [intros []; reflexivity|]. reflexivity.
Qed.

(** ** Pagination *)



(** ** Lookups by identifier *)

(** C5, as stated, fails: no product has the identifier 2^63, yet
    get_product does not answer 404 for it: the driver raises
    [OverflowError] when it binds the identifier. *)
Lemma get_product_identifier_overflow :
  fst (handle 2000 (req_get_product (2 ^ 63)) (sample_database 1000))
  = Unhandled int_too_large /\
  (~ exists p, In p (products (sample_database 1000)) /\
               Product.id p = 2 ^ 63) /\
  ~ (fst (handle 2000 (req_get_product (2 ^ 63)) (sample_database 1000))
     = ErrorResponse 404 "Product not found"
     <-> ~ exists p, In p (products (sample_database 1000)) /\
                     Product.id p = 2 ^ 63).
Proof.
  assert (fst (handle 2000 (req_get_product (2 ^ 63))
                 (sample_database 1000))
          = Unhandled int_too_large) as E by (vm_compute; reflexivity).
  assert (~ exists p, In p (products (sample_database 1000)) /\
                      Product.id p = 2 ^ 63) as N.
  { intros (p & Hin & Hid). vm_compute in Hin.
    repeat (destruct Hin as [<-|Hin]; [discriminate Hid|]). exact Hin. }
  split; [exact E|]. split; [exact N|].
  intros [_ H]. rewrite (H N) in E. discriminate E.
Qed.

(** C5, amended: for an identifier that fits in a signed 64-bit integer,
    get_product answers 404 exactly when no stored product has the
    identifier asked for, and get_user likewise for users; when a row with
    that identifier is stored, the answer is 200 with a row of that
    identifier, which under the primary key is that very row; and in
    every case the database is left as it was. *)
Theorem get_by_identifier (now : datetime) (db : Database) (ident : Z) :
  (fits_int64 ident = true ->
   (fst (handle now (req_get_product ident) db)
    = ErrorResponse 404 "Product not found"
    <-> ~ exists p, In p (products db) /\ Product.id p = ident) /\
   (fst (handle now (req_get_user ident) db)
    = ErrorResponse 404 "User not found"
    <-> ~ exists u, In u (users db) /\ User.id u = ident)) /\
  ((exists p, In p (products db) /\ Product.id p = ident) ->
   exists q, In q (products db) /\ Product.id q = ident /\
             fst (handle now (req_get_product ident) db)
             = Response 200 (ProductResponse q)) /\
  ((exists u, In u (users db) /\ User.id u = ident) ->
   exists v, In v (users db) /\ User.id v = ident /\
             fst (handle now (req_get_user ident) db)
             = Response 200 (UserResponse v)) /\
  (primary_keys db ->
   (forall p, In p (products db) -> Product.id p = ident ->
              fst (handle now (req_get_product ident) db)
              = Response 200 (ProductResponse p)) /\
   (forall u, In u (users db) -> User.id u = ident ->
              fst (handle now (req_get_user ident) db)
              = Response 200 (UserResponse u))) /\
  snd (handle now (req_get_product ident) db) = db /\
  snd (handle now (req_get_user ident) db) = db.
Proof.
  rewrite handle_get_product, handle_get_user.
  assert (forall A (id : A -> Z) (l : list A),
             find (fun r => id r =? ident) l = None <->
             ~ exists x, In x l /\ id x = ident) as N.
  { intros A id l. rewrite find_none_iff. split.
    - intros H (x & Hin & Hid). specialize (H x Hin).
      apply Z.eqb_neq in H. contradiction.
    - intros H x Hin. apply Z.eqb_neq. intros Hid. apply H. eauto. }
  pose proof (N _ Product.id (products db)) as NP.
  pose proof (N _ User.id (users db)) as NU.
  split; [|split; [|split; [|split; [|split]]]].
  - intros Hf. rewrite Hf. split.
    + destruct (find _ (products db)) as [p|] eqn:F; cbn.
      * split; [discriminate|]. intros H. apply NP in H. discriminate.
      * split; [intros _; now apply NP | reflexivity].
    + destruct (find _ (users db)) as [u|] eqn:F; cbn.
      * split; [discriminate|]. intros H. apply NU in H. discriminate.
      * split; [intros _; now apply NU | reflexivity].
  - intros E. destruct (find _ (products db)) as [p|] eqn:F.
    + destruct (find_id _ _ _ _ F). exists p. cbn. auto.
    + exfalso. now apply (proj1 NP).
  - intros E. destruct (find _ (users db)) as [u|] eqn:F.
    + destruct (find_id _ _ _ _ F). exists u. cbn. auto.
    + exfalso. now apply (proj1 NU).
  - intros [KP KU]. split.
    + intros p Hin <-. now rewrite (find_by_key Product.id _ _ KP Hin).
    + intros u Hin <-. now rewrite (find_by_key User.id _ _ KU Hin).
  - by_cases; reflexivity.
  - by_cases; reflexivity.
Qed.

Lemma get_by_identifier_witness :
  primary_keys (sample_database 1000) /\
  fst (handle 2000 (req_get_product 3) (sample_database 1000))
  = Response 200
      (ProductResponse
         (Product.mk 3 "Keyboard" (Some "Mechanical keyboard")
            0x4062bfae147ae148 false 1000)) /\
  fst (handle 2000 (req_get_user 7) (sample_database 1000))
  = ErrorResponse 404 "User not found".
Proof.
  assert (primary_keys (sample_database 1000)) as K
      by (apply primary_keysb_sound; vm_compute; reflexivity).
  split; [exact K|].
  destruct (get_by_identifier 2000 (sample_database 1000) 3)
    as (_ & _ & _ & H & _).
  destruct (get_by_identifier 2000 (sample_database 1000) 7)
    as (G & _).
  split.
  - apply (proj1 (H K)); [|reflexivity].
    vm_compute. do 2 right. left. reflexivity.
  - apply (proj2 (G eq_refl)). intros (u & Hin & Hid). vm_compute in Hin.
    repeat (destruct Hin as [<-|Hin]; [discriminate Hid|]). exact Hin.
Defined.

(** ** Deleting a product *)

(** C9, as stated, fails: no product has the identifier 2^63, yet
    delete_product does not answer 404 for it: its lookup raises
    [OverflowError] in the driver. *)
Lemma delete_product_identifier_overflow :
  handle 2000 (req_delete_product (2 ^ 63)) (sample_database 1000)
  = (Unhandled int_too_large, sample_database 1000) /\
  (forall p, In p (products (sample_database 1000)) ->
             Product.id p <> 2 ^ 63) /\
  handle 2000 (req_delete_product (2 ^ 63)) (sample_database 1000)
  <> (ErrorResponse 404 "Product not found", sample_database 1000).
Proof.
  assert (handle 2000 (req_delete_product (2 ^ 63)) (sample_database 1000)
          = (Unhandled int_too_large, sample_database 1000)) as E
      by (vm_compute; reflexivity).
  split; [exact E|]. split.
  - intros p Hin Hid. vm_compute in Hin.
    repeat (destruct Hin as [<-|Hin]; [discriminate Hid|]). exact Hin.
  - rewrite E. discriminate.
Qed.

(** C9, amended: with the identifier of a stored product, delete_product
    answers with the message "Product deleted successfully" and takes
    exactly that row out of the products table, every other row staying
    where it is and as it is (and the users untouched); with an
    identifier that fits in a signed 64-bit integer and that no product
    has, it answers 404 and the database is left as it was. *)
Theorem delete_product_removes_one_row (now : datetime) (db : Database)
  (product_id : Z) :
  NoDup (map Product.id (products db)) ->
  (forall p, In p (products db) -> Product.id p = product_id ->
     exists l1 l2,
       products db = l1 ++ p :: l2 /\
       ~ In p (l1 ++ l2) /\
       handle now (req_delete_product product_id) db =
       (Response 200
          (JsonObject [("message", JString "Product deleted successfully")]),
        with_products db (l1 ++ l2))) /\
  (fits_int64 product_id = true ->
   (forall p, In p (products db) -> Product.id p <> product_id) ->
   handle now (req_delete_product product_id) db =
   (ErrorResponse 404 "Product not found", db)).
Proof.
  intros K. rewrite handle_delete_product. split.
  - intros p Hin <-. rewrite (find_by_key Product.id _ _ K Hin).
    destruct (delete_by_key Product.id _ _ K Hin) as (l1 & l2 & E & Hout & F).
    exists l1, l2. rewrite F. auto.
  - intros Hf H. rewrite Hf.
    destruct (find _ (products db)) as [p|] eqn:F; [|reflexivity].
    destruct (find_id _ _ _ _ F) as [Hin Hid]. now apply H in Hin.
Qed.

Lemma delete_product_removes_one_row_witness :
  NoDup (map Product.id (products (sample_database 1000))) /\
  handle 2000 (req_delete_product 3) (sample_database 1000) =
  (Response 200
     (JsonObject [("message", JString "Product deleted successfully")]),
   with_products (sample_database 1000)
     (firstn 2 (products (sample_database 1000))
      ++ skipn 3 (products (sample_database 1000)))) /\
  handle 2000 (req_delete_product 9) (sample_database 1000) =
  (ErrorResponse 404 "Product not found", sample_database 1000).
Proof.
  assert (NoDup (map Product.id (products (sample_database 1000)))) as K
      by (apply (primary_keysb_sound (sample_database 1000));
          vm_compute; reflexivity).
  split; [exact K|].
  destruct (delete_product_removes_one_row 2000 (sample_database 1000) 9 K)
    as [_ H].
  split; [vm_compute; reflexivity|].
  apply H; [reflexivity|]. intros p Hin Hid. vm_compute in Hin.
  repeat (destruct Hin as [<-|Hin]; [discriminate Hid|]). exact Hin.
Defined.

(** ** Uniqueness of usernames and emails *)

(** C6: no request breaks the uniqueness of usernames and of emails: if
    no two stored users share a username and no two share an email
    before a request, of any route and with any parameters, the same
    holds of the database the request leaves behind. *)
Theorem handle_preserves_users_unique (now : datetime) (r : request)
  (db : Database) :
  users_unique db -> users_unique (snd (handle now r db)).
Proof.
  intros [HU HE]. unfold users_unique.
  destruct (handle_users now r db) as [E | (user & _ & F & E)];
    rewrite E; [tauto|].
  assert (forall y, In y (users db) ->
                    User.username y <> UserCreate.username user /\
                    User.email y <> UserCreate.email user) as D.
  { intros y Hy. apply find_none with (x := y) in F; [|assumption].
    apply orb_false_elim in F as [F1 F2].
    now apply String.eqb_neq in F1, F2. }
  split; apply NoDup_snoc; try assumption; intros y Hy; now apply D.
Qed.

Lemma handle_preserves_users_unique_witness :
  users_unique (sample_database 1000) /\
  users_unique
    (snd (handle 2000
            (req_create_user
               (UserCreate.mk "alice" "alice@example.com" None))
            (sample_database 1000))) /\
  List.length
    (users (snd (handle 2000
                   (req_create_user
                      (UserCreate.mk "alice" "alice@example.com" None))
                   (sample_database 1000)))) = 4%nat.
Proof.
  assert (users_unique (sample_database 1000)) as U
      by (apply users_uniqueb_sound; vm_compute; reflexivity).
  split; [exact U|]. split.
  - exact (handle_preserves_users_unique 2000 _ _ U).
  - vm_compute. reflexivity.
Defined.

(** ** Products and users are separate *)

(** C8: a request to one of the five product routes (create, update,
    delete, list, get) leaves the users table as it was, and a request to
    one of the three user routes (create, list, get) leaves the products
    table as it was. *)
Theorem tables_independent (now : datetime) (r : request) (db : Database) :
  (is_product_operation (endpoint_of r) = true ->
   users (snd (handle now r db)) = users db) /\
  (is_user_operation (endpoint_of r) = true ->
   products (snd (handle now r db)) = products db).
Proof.
  split; intros H.
  - destruct (handle_users now r db) as [E | (user & -> & _)];
      [exact E | discriminate H].
  - pose proof (handle_products now r db) as P.
    destruct r; cbn [endpoint_of is_user_operation] in *;
      first [discriminate H | exact P].
Qed.

Lemma tables_independent_witness :
  users (snd (handle 2000
                (req_create_product
                   (ProductCreate.mk_body "Webcam" None 0x4049000000000000
                      None))
                (sample_database 1000)))
  = users (sample_database 1000) /\
  products (snd (handle 2000
                   (req_create_user
                      (UserCreate.mk "alice" "alice@example.com" None))
                   (sample_database 1000)))
  = products (sample_database 1000).
Proof.
  split.
  - apply (tables_independent 2000
             (req_create_product
                (ProductCreate.mk_body "Webcam" None 0x4049000000000000 None))
             (sample_database 1000)).
    reflexivity.
  - apply (tables_independent 2000
             (req_create_user
                (UserCreate.mk "alice" "alice@example.com" None))
             (sample_database 1000)).
    reflexivity.
Defined.

(** ** Primary keys *)

(** The primary keys stay distinct under every request, so the databases
    the application reaches from the seeded one all have distinct
    identifiers. *)
Lemma handle_preserves_primary_keys (now : datetime) (r : request)
  (db : Database) :
  primary_keys db -> primary_keys (snd (handle now r db)).
Proof.
  intros [KP KU]. unfold primary_keys. split.
  - destruct r;
      try (match goal with
           | |- context [handle now ?q db] =>
               pose proof (handle_products now q db) as P
           end;
           cbn [endpoint_of] in P; rewrite P; exact KP);
      by_request.
    + destruct (is_nan _); [exact KP|].
      cbn [snd with_products products].
      apply NoDup_snoc; [assumption|]. intros y Hy.
      cbn [stored_product new_product Product.id]. apply Z.eqb_neq.
      now apply (rowid_not_taken Product.id).
    + by_cases; try exact KP.
      cbn [snd with_products products].
      rewrite map_map.
      erewrite map_ext; [exact KP|].
      intros a. cbn. now destruct (Product.id a =? product_id).
    + by_cases; try exact KP.
      cbn [snd with_products products].
      now apply NoDup_map_filter.
  - destruct (handle_users now r db) as [E | (user & _ & _ & E)];
      rewrite E; [exact KU|].
    apply NoDup_snoc; [assumption|]. intros y Hy.
    cbn [new_user User.id]. apply Z.eqb_neq.
    now apply (rowid_not_taken User.id).
Qed.

Lemma sample_database_primary_keys (now : datetime) :
  primary_keys (sample_database now) /\ users_unique (sample_database now).
Proof.
  split; [apply primary_keysb_sound | apply users_uniqueb_sound];
    vm_compute; reflexivity.
Qed.

(** * Further properties of the handlers *)

(** ** Reads and failures write nothing *)

(** X1: a request to a route whose handler never commits (the root, the
    health check, the two lists, the two lookups, the slow query, the
    error) leaves the database as it was; and so does every request that
    is not answered with a success response, whatever its route: a 404,
    the 400 of a taken username or email, a validation failure or an
    unhandled exception never comes with a write. *)
Theorem reads_and_failures_write_nothing (now : datetime) (r : request)
  (db : Database) :
  (commits (endpoint_of r) = false -> snd (handle now r db) = db) /\
  ((forall code body, fst (handle now r db) <> Response code body) ->
   snd (handle now r db) = db).
Proof.
  split.
  - intros H. destruct r; cbn [endpoint_of commits] in H;
      try discriminate H; by_request; by_cases; reflexivity.
  - intros H. destruct r; revert H; by_request; by_cases;
      cbn [fst snd]; intros H; try reflexivity;
      try (unfold listing in *; by_cases; reflexivity);
      exfalso; eapply H; reflexivity.
Qed.

Lemma reads_and_failures_write_nothing_witness :
  snd (handle 2000 req_slow_query_example (sample_database 1000))
  = sample_database 1000 /\
  snd (handle 2000 (req_update_product 9
                      (ProductCreate.mk_body "Webcam" None
                         0x4049000000000000 None))
         (sample_database 1000))
  = sample_database 1000.
Proof.
  split.
  - apply (proj1 (reads_and_failures_write_nothing 2000
                    req_slow_query_example (sample_database 1000))).
    reflexivity.
  - apply (proj2 (reads_and_failures_write_nothing 2000
                    (req_update_product 9
                       (ProductCreate.mk_body "Webcam" None
                          0x4049000000000000 None))
                    (sample_database 1000))).
    intros code body. vm_compute. discriminate.
Defined.

(** ** Unhandled exceptions *)



(** ** The slow query *)

(** X3: the slow-query route always answers 200 with the number of all
    stored products as [product_count], whatever the users table holds
    (its lookups of user 1 may find nothing) and however many products
    there are, and it leaves the database as it was. *)
Theorem slow_query_example_counts_products (now : datetime) (db : Database) :
  handle now req_slow_query_example db =
  (Response 200
     (JsonObject
        [("message", JString "This endpoint performs slow queries");
         ("product_count", JInt (Z.of_nat (List.length (products db))))]),
   db).
Proof. apply handle_slow_query_example. Qed.

(** ** Updating a product *)

Section KeyedUpdate.
Context {A : Type} (id : A -> Z) (g : A -> A).


End KeyedUpdate.



Lemma stored_setattrs_twice (kw : ProductCreate.t) (l : list Product.t)
  (i : Z) :
  map (fun r => if Product.id r =? i
                then stored_product (setattrs r kw) else r)
      (map (fun r => if Product.id r =? i
                     then stored_product (setattrs r kw) else r) l)
  = map (fun r => if Product.id r =? i
                  then stored_product (setattrs r kw) else r) l.
Proof.
  rewrite map_map. apply map_ext. intros a.
  destruct (Product.id a =? i) eqn:E; [|now rewrite E].
  cbn [stored_product setattrs Product.id]. now rewrite E.
Qed.

(** X5: once update_product has answered 200 with a row, get_product
    for the same identifier returns that row, and sending the same
    update again answers with the same row and changes nothing more. *)
Theorem update_then_get_product (now now' : datetime) (db : Database)
  (product_id : Z) (product : ProductCreate.body) (q : Product.t) :
  fst (handle now (req_update_product product_id product) db)
  = Response 200 (ProductResponse q) ->
  let db' := snd (handle now (req_update_product product_id product) db) in
  handle now' (req_get_product product_id) db'
  = (Response 200 (ProductResponse q), db') /\
  handle now' (req_update_product product_id product) db'
  = (Response 200 (ProductResponse q), db').
Proof.
  rewrite (handle_update_product now).
  destruct (find _ (products db)) as [p|] eqn:F.
  - destruct (is_nan _) eqn:Hn; [discriminate|].
    cbn [fst snd]. intros [= <-]. cbv zeta.
    rewrite handle_get_product, handle_update_product, Hn.
    cbn [with_products products].
    rewrite (find_map_update
               (fun r => stored_product
                           (setattrs r (ProductCreate.parse product)))
               _ _ _ (fun _ => eq_refl) F).
    split; [reflexivity|].
    unfold with_products. cbn [products users].
    now rewrite stored_setattrs_twice.
  - destruct (fits_int64 _); discriminate.
Qed.

Lemma update_then_get_product_witness :
  fst (handle 2000
         (req_update_product 2
            (ProductCreate.mk_body "Trackball" None 0x4049000000000000
               None))
         (sample_database 1000))
  = Response 200
      (ProductResponse
         (Product.mk 2 "Trackball" None 0x4049000000000000 true 1000)) /\
  fst (handle 3000 (req_get_product 2)
         (snd (handle 2000
                 (req_update_product 2
                    (ProductCreate.mk_body "Trackball" None
                       0x4049000000000000 None))
                 (sample_database 1000))))
  = Response 200
      (ProductResponse
         (Product.mk 2 "Trackball" None 0x4049000000000000 true 1000)).
Proof.
  assert (fst (handle 2000
                 (req_update_product 2
                    (ProductCreate.mk_body "Trackball" None
                       0x4049000000000000 None))
                 (sample_database 1000))
          = Response 200
              (ProductResponse
                 (Product.mk 2 "Trackball" None 0x4049000000000000 true
                    1000))) as E by (vm_compute; reflexivity).
  split; [exact E|].
  destruct (update_then_get_product 2000 3000 _ _ _ _ E) as [G _].
  rewrite G. reflexivity.
Defined.

(** ** Creating, then looking up *)



(** ** Creating a user *)



(** X8: create_user turns a request away only for a taken username or
    email: an error answer of it is the 400 with its fixed detail, some
    stored user then has the username or the email asked for, and the
    database is left as it was. *)
Theorem create_user_rejects_only_duplicates (now : datetime)
  (user : UserCreate.t) (db : Database) (code : Z) (detail : string) :
  fst (handle now (req_create_user user) db) = ErrorResponse code detail ->
  code = 400 /\
  detail = "User with this username or email already exists" /\
  (exists u, In u (users db) /\
             (User.username u = UserCreate.username user \/
              User.email u = UserCreate.email user)) /\
  snd (handle now (req_create_user user) db) = db.
Proof.
  rewrite handle_create_user.
  destruct (find _ (users db)) as [u|] eqn:F; [|discriminate].
  cbn. intros [= <- <-]. repeat (split; [reflexivity|]).
  split; [|reflexivity].
  apply find_some in F as [Hin F]. exists u. split; [exact Hin|].
  apply orb_prop in F as [F|F]; apply String.eqb_eq in F; tauto.
Qed.

Lemma create_user_rejects_only_duplicates_witness :
  fst (handle 2000
         (req_create_user (UserCreate.mk "admin" "root@example.com" None))
         (sample_database 1000))
  = ErrorResponse 400 "User with this username or email already exists" /\
  snd (handle 2000
         (req_create_user (UserCreate.mk "admin" "root@example.com" None))
         (sample_database 1000))
  = sample_database 1000.
Proof.
  assert (fst (handle 2000
                 (req_create_user
                    (UserCreate.mk "admin" "root@example.com" None))
                 (sample_database 1000))
          = ErrorResponse 400
              "User with this username or email already exists") as E
      by (vm_compute; reflexivity).
  split; [exact E|].
  exact (proj2 (proj2 (proj2
           (create_user_rejects_only_duplicates 2000 _ _ _ _ E)))).
Defined.


(** ** Deleting, then looking up *)

Lemma find_filter_same {A} (id : A -> Z) (i : Z) (l : list A) :
  find (fun r => id r =? i) (filter (fun r => negb (id r =? i)) l) = None.
Proof.
  apply find_none_iff. intros x Hx. apply filter_In in Hx as [_ Hx].
  now apply negb_true_iff in Hx.
Qed.

Lemma find_filter_other {A} (id : A -> Z) (i o : Z) (l : list A) :
  o <> i ->
  find (fun r => id r =? o) (filter (fun r => negb (id r =? i)) l)
  = find (fun r => id r =? o) l.
Proof.
  intros Hoi. induction l as [|a l IH]; simpl; [reflexivity|].
  destruct (Z.eqb_spec (id a) i) as [E|E]; simpl.
  - destruct (Z.eqb_spec (id a) o); [congruence | exact IH].
  - destruct (id a =? o); [reflexivity | exact IH].
Qed.

(** X10: after a delete_product request for an identifier that fits in
    64 bits, whether it found a row or not, no product has that
    identifier: get_product,
    update_product and a second delete_product for it all answer 404 and
    change nothing, while the lookup of every other identifier answers as
    it did before. *)
Theorem delete_then_gone (now now' : datetime) (product_id : Z)
  (product : ProductCreate.body) (db : Database) :
  fits_int64 product_id = true ->
  let db' := snd (handle now (req_delete_product product_id) db) in
  handle now' (req_get_product product_id) db'
  = (ErrorResponse 404 "Product not found", db') /\
  handle now' (req_update_product product_id product) db'
  = (ErrorResponse 404 "Product not found", db') /\
  handle now' (req_delete_product product_id) db'
  = (ErrorResponse 404 "Product not found", db') /\
  forall other,
    other <> product_id ->
    fst (handle now' (req_get_product other) db')
    = fst (handle now' (req_get_product other) db).
Proof.
  intros Hf. cbv zeta. rewrite (handle_delete_product now), Hf.
  destruct (find _ (products db)) as [p|] eqn:F; cbn [snd];
    rewrite handle_get_product, handle_update_product,
      handle_delete_product, Hf.
  - cbn [with_products products]. rewrite find_filter_same.
    repeat (split; [reflexivity|]).
    intros other H. rewrite !handle_get_product.
    cbn [with_products products].
    rewrite (find_filter_other Product.id product_id other _ H).
    by_cases; reflexivity.
  - rewrite F. repeat (split; [reflexivity|]). reflexivity.
Qed.

Lemma delete_then_gone_witness :
  handle 3000 (req_get_product 3)
    (snd (handle 2000 (req_delete_product 3) (sample_database 1000)))
  = (ErrorResponse 404 "Product not found",
     snd (handle 2000 (req_delete_product 3) (sample_database 1000))) /\
  fst (handle 3000 (req_get_product 4)
         (snd (handle 2000 (req_delete_product 3) (sample_database 1000))))
  = fst (handle 3000 (req_get_product 4) (sample_database 1000)).
Proof.
  destruct (delete_then_gone 2000 3000 3
              (ProductCreate.mk_body "Webcam" None 0x4049000000000000 None)
              (sample_database 1000) eq_refl) as (G & _ & _ & H).
  split; [exact G|]. apply H. discriminate.
Defined.

(** ** Paging through a table *)

Lemma firstn_plus {A} (n m : nat) (l : list A) :
  firstn (n + m) l = firstn n l ++ firstn m (skipn n l).
Proof.
  revert l. induction n as [|n IH]; intros l; [reflexivity|].
  destruct l as [|x l]; simpl.
  - now rewrite firstn_nil.
  - now rewrite IH.
Qed.

Lemma page_plus {A} (skip a b : Z) (l : list A) :
  0 <= skip -> 0 <= a -> 0 <= b ->
  page skip (a + b) l = page skip a l ++ page (skip + a) b l.
Proof.
  intros Hs Ha Hb. unfold page.
  rewrite !Z2Nat.inj_add by assumption.
  rewrite firstn_plus, skipn_skipn.
  now rewrite (Nat.add_comm (Z.to_nat a)).
Qed.

Lemma in_page {A} (skip limit_ : Z) (l : list A) (x : A) :
  In x (page skip limit_ l) -> In x l.
Proof.
  unfold page. intros H.
  rewrite <- (firstn_skipn (Z.to_nat skip) l). apply in_or_app. right.
  rewrite <- (firstn_skipn (Z.to_nat limit_) (skipn _ l)).
  apply in_or_app. now left.
Qed.

(** X11: pages follow one another without gap or overlap: for a [skip]
    of at least 0, limits [a] and [b] of at least 1 with [a + b] at most
    100, and [skip + a] below 2^63 (so that the driver takes it), the
    rows a
    list request returns for ([skip], [a]) followed by those it returns
    for ([skip + a], [b]) are the rows it returns for ([skip],
    [a + b]); for the users and for the products alike. *)
Theorem consecutive_pages_concatenate (now : datetime) (db : Database)
  (skip a b : Z) (in_stock_only : option bool) :
  0 <= skip -> skip + a < 2 ^ 63 -> 1 <= a -> 1 <= b -> a + b <= 100 ->
  (exists r1 r2,
      handle now (req_list_users (Some skip) (Some a)) db
      = (Response 200 (UserResponseList r1), db) /\
      handle now (req_list_users (Some (skip + a)) (Some b)) db
      = (Response 200 (UserResponseList r2), db) /\
      handle now (req_list_users (Some skip) (Some (a + b))) db
      = (Response 200 (UserResponseList (r1 ++ r2)), db)) /\
  (exists r1 r2,
      handle now (req_list_products (Some skip) (Some a) in_stock_only) db
      = (Response 200 (ProductResponseList r1), db) /\
      handle now
        (req_list_products (Some (skip + a)) (Some b) in_stock_only) db
      = (Response 200 (ProductResponseList r2), db) /\
      handle now
        (req_list_products (Some skip) (Some (a + b)) in_stock_only) db
      = (Response 200 (ProductResponseList (r1 ++ r2)), db)).
Proof.
  intros Hs Hsa Ha Hb Hab.
  split; eexists; eexists;
    rewrite ?handle_list_users, ?handle_list_products;
    cbn [or_default];
    rewrite !in_range_true by lia;
    rewrite !listing_fits by lia;
    (split; [reflexivity|]); (split; [reflexivity|]);
    now rewrite page_plus by lia.
Qed.

Lemma consecutive_pages_concatenate_witness :
  exists r1 r2,
    handle 2000 (req_list_users (Some 0) (Some 1)) (sample_database 1000)
    = (Response 200 (UserResponseList r1), sample_database 1000) /\
    handle 2000 (req_list_users (Some (0 + 1)) (Some 2))
      (sample_database 1000)
    = (Response 200 (UserResponseList r2), sample_database 1000) /\
    handle 2000 (req_list_users (Some 0) (Some (1 + 2)))
      (sample_database 1000)
    = (Response 200 (UserResponseList (r1 ++ r2)), sample_database 1000).
Proof.
  apply (consecutive_pages_concatenate 2000 (sample_database 1000) 0 1 2
           None); lia.
Defined.

(** X12: the ends of paging.  A valid list request whose [skip] is at
    least the number of stored rows, and below 2^63, is answered 200 with
    the empty list, not with an error; and a list request without parameters on a table
    of at most 10 rows returns the whole table, in stored order. *)
Theorem list_requests_at_the_ends (now : datetime) (db : Database) :
  (forall skip limit_,
      1 <= or_default 10 limit_ <= 100 ->
      Z.of_nat (List.length (users db)) <= skip < 2 ^ 63 ->
      handle now (req_list_users (Some skip) limit_) db
      = (Response 200 (UserResponseList []), db)) /\
  (forall skip limit_ in_stock_only,
      1 <= or_default 10 limit_ <= 100 ->
      Z.of_nat (List.length (products db)) <= skip < 2 ^ 63 ->
      handle now (req_list_products (Some skip) limit_ in_stock_only) db
      = (Response 200 (ProductResponseList []), db)) /\
  ((List.length (users db) <= 10)%nat ->
   handle now (req_list_users None None) db
   = (Response 200 (UserResponseList (users db)), db)) /\
  ((List.length (products db) <= 10)%nat ->
   handle now (req_list_products None None None) db
   = (Response 200 (ProductResponseList (products db)), db)).
Proof.
  assert (forall A (l : list A) skip lm,
             Z.of_nat (List.length l) <= skip -> page skip lm l = [])
    as Hend.
  { intros A l skip lm H. unfold page.
    rewrite skipn_all2 by lia. apply firstn_nil. }
  assert (forall A (l : list A),
             (List.length l <= 10)%nat -> page 0 10 l = l) as Hall.
  { intros A l H. unfold page. cbn [Z.to_nat skipn].
    now apply firstn_all2. }
  split; [|split; [|split]].
  - intros skip limit_ Hl Hs. rewrite handle_list_users. cbn [or_default].
    rewrite in_range_true by lia. rewrite listing_fits by lia.
    now rewrite Hend by lia.
  - intros skip limit_ b Hl Hs. rewrite handle_list_products.
    change (or_default 0 (Some skip)) with skip.
    rewrite in_range_true by lia. rewrite listing_fits by lia.
    destruct (or_default false b); [|now rewrite Hend by lia].
    unfold page. now rewrite skipn_nil, firstn_nil.
  - intros H. rewrite handle_list_users. cbn [or_default].
    rewrite in_range_true by lia. rewrite listing_fits by lia.
    now rewrite Hall.
  - intros H. rewrite handle_list_products. cbn [or_default].
    rewrite in_range_true by lia. rewrite listing_fits by lia.
    now rewrite Hall.
Qed.

Lemma list_requests_at_the_ends_witness :
  handle 2000 (req_list_users (Some 3) None) (sample_database 1000)
  = (Response 200 (UserResponseList []), sample_database 1000) /\
  handle 2000 (req_list_products None None None) (sample_database 1000)
  = (Response 200 (ProductResponseList (products (sample_database 1000))),
     sample_database 1000).
Proof.
  destruct (list_requests_at_the_ends 2000 (sample_database 1000))
    as (H1 & _ & _ & H4).
  split.
  - apply H1; [cbn; lia |]. split; [vm_compute; discriminate | lia].
  - apply H4. vm_compute. repeat constructor.
Defined.

(** X13: what a list answers can be looked up: under the primary keys,
    every row in the answer to a list request is the row the lookup by
    its identifier returns. *)
Theorem listed_rows_can_be_fetched (now now' : datetime) (db : Database)
  (skip limit_ : option Z) :
  primary_keys db ->
  (forall in_stock_only code rows p,
      fst (handle now (req_list_products skip limit_ in_stock_only) db)
      = Response code (ProductResponseList rows) ->
      In p rows ->
      handle now' (req_get_product (Product.id p)) db
      = (Response 200 (ProductResponse p), db)) /\
  (forall code rows u,
      fst (handle now (req_list_users skip limit_) db)
      = Response code (UserResponseList rows) ->
      In u rows ->
      handle now' (req_get_user (User.id u)) db
      = (Response 200 (UserResponse u), db)).
Proof.
  intros [KP KU]. split.
  - intros b code rows p H Hin. rewrite handle_list_products in H.
    destruct (_ && _); [|discriminate]. cbn [fst] in H.
    apply listing_rows in H as [_ [= ->]].
    apply in_page in Hin.
    destruct (or_default false b); [destruct Hin|].
    rewrite handle_get_product.
    now rewrite (find_by_key Product.id _ _ KP Hin).
  - intros code rows u H Hin. rewrite handle_list_users in H.
    destruct (_ && _); [|discriminate]. cbn [fst] in H.
    apply listing_rows in H as [_ [= ->]].
    apply in_page in Hin. rewrite handle_get_user.
    now rewrite (find_by_key User.id _ _ KU Hin).
Qed.

Lemma listed_rows_can_be_fetched_witness :
  primary_keys (sample_database 1000) /\
  handle 3000 (req_get_user 2) (sample_database 1000)
  = (Response 200
       (UserResponse
          (User.mk 2 "janedoe" "jane@example.com" (Some "Jane Doe") 1000)),
     sample_database 1000).
Proof.
  assert (primary_keys (sample_database 1000)) as K
      by (apply primary_keysb_sound; vm_compute; reflexivity).
  split; [exact K|].
  destruct (listed_rows_can_be_fetched 2000 3000 (sample_database 1000)
              None None K) as [_ H].
  apply (H 200 (users (sample_database 1000))
           (User.mk 2 "janedoe" "jane@example.com" (Some "Jane Doe") 1000)).
  - vm_compute. reflexivity.
  - vm_compute. right. left. reflexivity.
Defined.

(** ** Seeding *)






(** ** Every database the server reaches *)

Lemma schema_step (now : datetime) (r : request) (db : Database) :
  primary_keys db /\ users_unique db ->
  primary_keys (snd (handle now r db)) /\
  users_unique (snd (handle now r db)).
Proof.
  intros [K [HU HE]]. split; [now apply handle_preserves_primary_keys|].
  unfold users_unique.
  destruct (handle_users now r db) as [E | (user & _ & F & E)];
    rewrite E; [tauto|].
  assert (forall y, In y (users db) ->
                    User.username y <> UserCreate.username user /\
                    User.email y <> UserCreate.email user) as D.
  { intros y Hy. apply find_none with (x := y) in F; [|assumption].
    apply orb_false_elim in F as [F1 F2].
    now apply String.eqb_neq in F1, F2. }
  split; apply NoDup_snoc; try assumption; intros y Hy; now apply D.
Qed.

(** X15: the schema constraints hold in every database the server
    reaches: starting from a database with distinct product identifiers,
    user identifiers, usernames and emails (the seeded one is such), any
    sequence of requests, of any routes and at any times, leaves a
    database where all four are distinct again. *)
Theorem served_databases_keep_schema (requests : list (datetime * request))
  (db : Database) :
  primary_keys db -> users_unique db ->
  primary_keys (serve requests db) /\ users_unique (serve requests db).
Proof.
  revert db. induction requests as [|[now r] requests IH]; intros db K U.
  - now split.
  - cbn [serve fold_left fst snd].
    destruct (schema_step now r db (conj K U)) as [K' U'].
    now apply IH.
Qed.

Lemma served_databases_keep_schema_witness :
  primary_keys
    (serve [(2000, req_create_user
                     (UserCreate.mk "alice" "alice@example.com" None));
            (2001, req_create_user
                     (UserCreate.mk "bob" "alice@example.com" None));
            (2002, req_delete_product 5);
            (2003, req_create_product
                     (ProductCreate.mk_body "Webcam" None
                        0x4049000000000000 None))]
       (sample_database 1000)) /\
  users_unique
    (serve [(2000, req_create_user
                     (UserCreate.mk "alice" "alice@example.com" None));
            (2001, req_create_user
                     (UserCreate.mk "bob" "alice@example.com" None));
            (2002, req_delete_product 5);
            (2003, req_create_product
                     (ProductCreate.mk_body "Webcam" None
                        0x4049000000000000 None))]
       (sample_database 1000)).
Proof.
  apply served_databases_keep_schema.
  - apply primary_keysb_sound. vm_compute. reflexivity.
  - apply users_uniqueb_sound. vm_compute. reflexivity.
Defined.

(** ** Status codes *)

(** X16: the status codes the handlers answer with.  A success is 201
    for the two create routes and 200 for every other route; an error
    answer raised by a handler is the 404 of a lookup, update or delete
    by an identifier nothing has, or the 400 of create_user. *)
Theorem status_codes (now : datetime) (r : request) (db : Database) :
  (forall code body,
      fst (handle now r db) = Response code body ->
      (code = 201 /\
       (endpoint_of r = ep_create_product \/
        endpoint_of r = ep_create_user)) \/
      (code = 200 /\
       endpoint_of r <> ep_create_product /\
       endpoint_of r <> ep_create_user)) /\
  (forall code detail,
      fst (handle now r db) = ErrorResponse code detail ->
      (code = 404 /\
       (endpoint_of r = ep_get_product \/
        endpoint_of r = ep_update_product \/
        endpoint_of r = ep_delete_product \/
        endpoint_of r = ep_get_user)) \/
      (code = 400 /\ endpoint_of r = ep_create_user)).
Proof.
  assert (forall A (wrap : list A -> content) sk lm l c d,
             listing wrap sk lm l <> ErrorResponse c d) as L.
  { intros A wrap sk lm l c d. unfold listing.
    destruct (page sk lm l); [destruct (sk <? 2 ^ 63)|]; discriminate. }
  split; intros code x; destruct r; by_request; by_cases;
    cbn [fst endpoint_of]; intros H;
    try (apply listing_rows in H as [-> _]);
    try (now apply L in H);
    try discriminate H;
    try (inversion H; subst);
    solve [ left; split;
            [reflexivity
            |repeat first [reflexivity | left; reflexivity | right]]
          | right; split; [reflexivity|]; split; discriminate
          | right; split; reflexivity ].
Qed.

Lemma status_codes_witness :
  fst (handle 2000 (req_get_user 9) (sample_database 1000))
  = ErrorResponse 404 "User not found" /\
  endpoint_of (req_get_user 9) = ep_get_user.
Proof.
  assert (fst (handle 2000 (req_get_user 9) (sample_database 1000))
          = ErrorResponse 404 "User not found") as E
      by (vm_compute; reflexivity).
  split; [exact E|].
  destruct (proj2 (status_codes 2000 (req_get_user 9)
                     (sample_database 1000)) _ _ E)
    as [[_ H] | [H _]]; [reflexivity | discriminate H].
Defined.
